(** * Sessions, tunnels and the session service of the rport server

    A shallow embedding of [server/clients/client.go] and
    [server/session_service.go].  Methods with a pointer receiver are
    written in state-passing style: they take the receiver and return the
    receiver as it is after the call.  Everything a method does to the
    outside (binding or closing a listener, asking the port distributor,
    reading the clock) goes through a small state monad whose state also
    keeps the list of those calls in the order they were made. *)

From Stdlib Require Import ZArith Lia DecimalString DecimalPos DecimalZ.
From stdpp Require Import base option list strings gmap.

Local Open Scope Z_scope.

(** ** Go values *)

(** The [error] interface.  The constructors follow the error kinds the
    collaborators of this code can raise. *)
Inductive error : Type :=
| OSQueryError
| PortExhaustedError
| ACLParseError (acl : string)
| BindError (addr : string)
| OtherError (msg : string).

(** A Go result pair [(T, error)]: either the value with a nil error or a
    nil value with the error. *)
Inductive result (A : Type) : Type :=
| Ok (a : A)
| Err (e : error).
Arguments Ok {A} a.
Arguments Err {A} e.

#[global] Instance error_eq_dec : EqDecision error.
Proof. solve_decision. Defined.

(** [int64] arithmetic: [wrap64] brings an integer back into
    [-2^63 .. 2^63-1] the way two's complement addition does. *)
Definition min_int64 : Z := - 2 ^ 63.
Definition max_int64 : Z := 2 ^ 63 - 1.
Definition wrap64 (z : Z) : Z := (z + 2 ^ 63) mod 2 ^ 64 - 2 ^ 63.

(** [strconv.FormatInt(n, 10)] and [strconv.Itoa]: the decimal numeral of
    [n], with a leading minus sign for negative numbers. *)
Definition FormatInt (n : Z) : string := NilZero.string_of_int (Z.to_int n).
Definition Itoa (n : Z) : string := FormatInt n.

(** The number a decimal numeral stands for; [int(t.ID)] in the
    specification. *)
Definition Atoi (s : string) : option Z :=
  match NilZero.int_of_string s with
  | Some d => Some (Z.of_int d)
  | None => None
  end.

(** [time.Time] is an instant on a line of nanoseconds and
    [time.Duration] a number of nanoseconds; [Add] moves an instant by a
    duration and [Before] is the strict order of instants. *)
Definition Time : Type := Z.
Definition Duration : Type := Z.
Definition Time_Add (t : Time) (d : Duration) : Time := t + d.
Definition Time_Before (t u : Time) : bool := t <? u.

(** ** Remotes, ACLs and tunnels *)

(** [chshare.Remote]: one requested forwarding. *)
Record Remote : Type := mkRemote {
  Protocol : string;
  LocalHost : string;
  LocalPort : string;
  RemoteHost : string;
  RemotePort : string;
  LocalPortRandom : bool;
  ACL : option string
}.

(** Modelled from the spec: the declaration of [TunnelACL] is in
    [server/clients/tunnel_acl.go], which is not part of the sources at
    hand.  An ACL is an ordered list of CIDR networks, each an address
    with the length of its prefix. *)
Record IPNet : Type := mkIPNet { net_addr : N; net_ones : nat }.
Definition TunnelACL : Type := list IPNet.

(** Modelled from the spec: the declaration of [Tunnel] is in
    [server/clients/tunnel.go], which is not part of the sources at hand.
    A tunnel carries its ID, the remote it was created for and its ACL. *)
Record Tunnel : Type := mkTunnel {
  tunnel_ID : string;
  tunnel_Remote : Remote;
  tunnel_ACL : TunnelACL
}.

(** [NewTunnel(logger, conn, id, remote, acl)]. *)
Definition NewTunnel (id : string) (r : Remote) (acl : TunnelACL) : Tunnel :=
  mkTunnel id r acl.

#[global] Instance Remote_eq_dec : EqDecision Remote.
Proof. solve_decision. Defined.
#[global] Instance IPNet_eq_dec : EqDecision IPNet.
Proof. solve_decision. Defined.
#[global] Instance Tunnel_eq_dec : EqDecision Tunnel.
Proof. solve_decision. Defined.

(** ** Clients *)

Inductive ConnectionState : Type := Connected | Disconnected.

(** [ssh.Conn], as far as this code looks at it. *)
Record Conn : Type := mkConn { RemoteAddr : string }.

(** The [Client] struct.  [Context] and [Logger] are handles that the code
    below only passes on; they are left out. *)
Record Client : Type := mkClient {
  ID : string;
  Name : string;
  OS : string;
  OSArch : string;
  OSFamily : string;
  OSKernel : string;
  Hostname : string;
  IPv4 : list string;
  IPv6 : list string;
  Tags : list string;
  Version : string;
  Address : string;
  Tunnels : list Tunnel;
  DisconnectedAt : option Time;
  ClientAuthID : string;
  Connection : Conn;
  tunnelIDAutoIncrement : Z
}.

Definition set_Tunnels (c : Client) (ts : list Tunnel) : Client :=
  mkClient (ID c) (Name c) (OS c) (OSArch c) (OSFamily c) (OSKernel c)
    (Hostname c) (IPv4 c) (IPv6 c) (Tags c) (Version c) (Address c)
    ts (DisconnectedAt c) (ClientAuthID c) (Connection c)
    (tunnelIDAutoIncrement c).

Definition set_DisconnectedAt (c : Client) (t : option Time) : Client :=
  mkClient (ID c) (Name c) (OS c) (OSArch c) (OSFamily c) (OSKernel c)
    (Hostname c) (IPv4 c) (IPv6 c) (Tags c) (Version c) (Address c)
    (Tunnels c) t (ClientAuthID c) (Connection c)
    (tunnelIDAutoIncrement c).

Definition set_tunnelIDAutoIncrement (c : Client) (n : Z) : Client :=
  mkClient (ID c) (Name c) (OS c) (OSArch c) (OSFamily c) (OSKernel c)
    (Hostname c) (IPv4 c) (IPv6 c) (Tags c) (Version c) (Address c)
    (Tunnels c) (DisconnectedAt c) (ClientAuthID c) (Connection c) n.

(** Modelled from the spec: [ClientSessionRepository] is declared in the
    repository package, which is not part of the sources at hand.  It is a
    mapping from session ID to session with the retention setting
    [KeepLostClients]; [Save] inserts or replaces the entry under the
    session's ID, [Delete] removes it, [GetByID] returns any session and
    [GetActiveByID] only a connected one.  None of them fails. *)
Record ClientSessionRepository : Type := mkRepo {
  sessions : gmap string Client;
  KeepLostClients : option Duration
}.

Definition repo_put (r : ClientSessionRepository) (m : gmap string Client)
  : ClientSessionRepository :=
  mkRepo m (KeepLostClients r).

Definition repo_Save (r : ClientSessionRepository) (s : Client)
  : ClientSessionRepository * option error :=
  (repo_put r (<[ID s := s]> (sessions r)), None).

Definition repo_Delete (r : ClientSessionRepository) (s : Client)
  : ClientSessionRepository * option error :=
  (repo_put r (delete (ID s) (sessions r)), None).

Definition repo_GetByID (r : ClientSessionRepository) (id : string)
  : option Client :=
  sessions r !! id.

Definition repo_GetActiveByID (r : ClientSessionRepository) (id : string)
  : option Client :=
  match sessions r !! id with
  | Some s => match DisconnectedAt s with
              | None => Some s
              | Some _ => None
              end
  | None => None
  end.

(** ** The outside world

    Listeners, the port distributor and the clock live outside this code,
    and the functions that reach them ([tunnel.go], [tunnel_acl.go], the
    packages [ports] and [share]) are not part of the sources at hand.
    They are taken as parameters: [Collaborators World] gives their
    behaviour over a state [World] of their own, and every theorem of the
    general part holds whatever they do. *)
Class Collaborators (World : Type) : Type := {
  (** [Remote.IsLocalSpecified] *)
  IsLocalSpecified : Remote -> bool;
  (** [Tunnel.Equals] *)
  tunnel_Equals : Tunnel -> Remote -> bool;
  (** [ParseTunnelACL] *)
  ParseTunnelACL : option string -> result TunnelACL;
  (** [Tunnel.Start]: binds the listener of the tunnel *)
  tunnel_Start : Tunnel -> World -> option error * World;
  (** [Tunnel.Terminate]: closes it *)
  tunnel_Terminate : Tunnel -> World -> option error * World;
  (** [PortDistributor.Refresh] *)
  pd_Refresh : World -> option error * World;
  (** [PortDistributor.GetRandomPort] *)
  pd_GetRandomPort : World -> result Z * World;
  (** [time.Now] *)
  time_Now : World -> Time * World
}.

(** A call made to the outside, with what it returned. *)
Inductive Call : Type :=
| CallRefresh (e : option error)
| CallGetRandomPort (p : result Z)
| CallStart (t : Tunnel) (e : option error)
| CallTerminate (t : Tunnel) (e : option error)
| CallNow (t : Time).

(** The tunnels handed to [Tunnel.Start], in call order. *)
Definition started (l : list Call) : list Tunnel :=
  omap (fun c => match c with CallStart t _ => Some t | _ => None end) l.

(** The tunnels handed to [Tunnel.Terminate], in call order. *)
Definition terminated (l : list Call) : list Tunnel :=
  omap (fun c => match c with CallTerminate t _ => Some t | _ => None end) l.

(** What the server runs on: the outside world, the session repository the
    service holds, and the calls made so far. *)
Record State (World : Type) : Type := mkState {
  world : World;
  repo : ClientSessionRepository;
  calls : list Call
}.
Arguments mkState {World} _ _ _.
Arguments world {World} _.
Arguments repo {World} _.
Arguments calls {World} _.

(** [chshare.ConnectionRequest] *)
Record ConnectionRequest : Type := mkConnectionRequest {
  req_Name : string;
  req_Tags : list string;
  req_OS : string;
  req_Hostname : string;
  req_Version : string;
  req_IPv4 : list string;
  req_IPv6 : list string;
  req_Remotes : list Remote
}.

Section Server.
Context {World : Type} `{Collaborators World}.

Definition M (A : Type) : Type := State World -> A * State World.

Definition ret {A : Type} (a : A) : M A := fun st => (a, st).

Definition bind {A B : Type} (m : M A) (k : A -> M B) : M B :=
  fun st => let (a, st') := m st in k a st'.

Notation "x <- m ;; k" := (bind m (fun x => k))
  (at level 100, m at next level, right associativity).

(** An outside call: run it on the world and append it to the calls. *)
Definition outside {A : Type} (f : World -> A * World) (ev : A -> Call) : M A :=
  fun st =>
    let (a, w) := f (world st) in
    (a, mkState w (repo st) (calls st ++ [ev a])).

Definition PortDistributor_Refresh : M (option error) :=
  outside pd_Refresh CallRefresh.
Definition PortDistributor_GetRandomPort : M (result Z) :=
  outside pd_GetRandomPort CallGetRandomPort.
Definition Tunnel_Start (t : Tunnel) : M (option error) :=
  outside (tunnel_Start t) (CallStart t).
Definition Tunnel_Terminate (t : Tunnel) : M (option error) :=
  outside (tunnel_Terminate t) (CallTerminate t).
Definition now : M Time := outside time_Now CallNow.

Definition Save (s : Client) : M (option error) :=
  fun st =>
    let (r, e) := repo_Save (repo st) s in
    (e, mkState (world st) r (calls st)).

Definition Delete (s : Client) : M (option error) :=
  fun st =>
    let (r, e) := repo_Delete (repo st) s in
    (e, mkState (world st) r (calls st)).

(** ** [client.go] *)

(** [Client.Obsolete]: [&&] evaluates from the left and stops at the first
    false operand, so the clock is read only when both pointers are set. *)
Definition Obsolete (c : Client) (duration : option Duration) : M bool :=
  match duration with
  | None => ret false
  | Some d =>
      match DisconnectedAt c with
      | None => ret false
      | Some at_ =>
          n <- now ;;
          ret (Time_Before (Time_Add at_ d) n)
      end
  end.

Fixpoint findByRemote (ts : list Tunnel) (r : Remote) : option Tunnel :=
  match ts with
  | [] => None
  | curr :: rest =>
      if tunnel_Equals curr r then Some curr else findByRemote rest r
  end.

(** [Client.FindTunnelByRemote] *)
Definition FindTunnelByRemote (c : Client) (r : Remote) : option Tunnel :=
  findByRemote (Tunnels c) r.

Fixpoint findByID (ts : list Tunnel) (id : string) : option Tunnel :=
  match ts with
  | [] => None
  | curr :: rest =>
      if bool_decide (tunnel_ID curr = id) then Some curr else findByID rest id
  end.

(** [Client.FindTunnel] *)
Definition FindTunnel (c : Client) (id : string) : option Tunnel :=
  findByID (Tunnels c) id.

(** [Client.generateNewTunnelID]: [atomic.AddInt64] adds one to the
    counter, wrapping around as [int64] does, and returns the new value. *)
Definition generateNewTunnelID (c : Client) : Client * Z :=
  let n := wrap64 (tunnelIDAutoIncrement c + 1) in
  (set_tunnelIDAutoIncrement c n, n).

(** [Client.StartTunnel] *)
Definition StartTunnel (c : Client) (r : Remote) (acl : TunnelACL)
  : M (Client * result Tunnel) :=
  match FindTunnelByRemote c r with
  | Some t => ret (c, Ok t)
  | None =>
      let (c, n) := generateNewTunnelID c in
      let tunnelID := FormatInt n in
      let t := NewTunnel tunnelID r acl in
      err <- Tunnel_Start t ;;
      match err with
      | Some e => ret (c, Err e)
      | None => ret (set_Tunnels c (Tunnels c ++ [t]), Ok t)
      end
  end.

(** [Client.removeTunnel]: the loop appends to [result] every tunnel whose
    ID differs from the ID of [t]. *)
Definition removeTunnel (c : Client) (t : Tunnel) : Client :=
  let result :=
    fold_left
      (fun result curr =>
         if bool_decide (tunnel_ID curr <> tunnel_ID t)
         then result ++ [curr] else result)
      (Tunnels c) [] in
  set_Tunnels c result.

(** [Client.TerminateTunnel].  The line written to the logger is left
    out. *)
Definition TerminateTunnel (c : Client) (t : Tunnel) : M (Client * option error) :=
  err <- Tunnel_Terminate t ;;
  match err with
  | Some e => ret (c, Some e)
  | None => ret (removeTunnel c t, None)
  end.

(** [Client.ConnectionState] *)
Definition ConnectionState_of (c : Client) : ConnectionState :=
  match DisconnectedAt c with
  | None => Connected
  | Some _ => Disconnected
  end.

(** ** [session_service.go]

    The service file names the session type [ClientSession] and its
    timestamp [Disconnected]; they are [Client] and [DisconnectedAt] of
    [client.go]. *)

(** The session [StartClientSession] builds.  Fields that the struct
    literal does not mention have Go's zero value; [Context], [Logger] and
    [User], which the literal sets, are not fields of the record. *)
Definition newSession (sid : string) (sshConn : Conn) (req : ConnectionRequest)
  : Client :=
  {| ID := sid;
     Name := req_Name req;
     OS := req_OS req;
     OSArch := "";
     OSFamily := "";
     OSKernel := "";
     Hostname := req_Hostname req;
     IPv4 := req_IPv4 req;
     IPv6 := req_IPv6 req;
     Tags := req_Tags req;
     Version := req_Version req;
     Address := RemoteAddr sshConn;
     Tunnels := [];
     DisconnectedAt := None;
     ClientAuthID := "";
     Connection := sshConn;
     tunnelIDAutoIncrement := 0 |}.

(** Lines 89-97 of [StartSessionTunnels]: a remote without a local port
    gets one from the port distributor.  The remote is an object behind a
    pointer, so the assignments are seen by whoever holds it; the remote
    as it is afterwards is returned. *)
Definition assignLocal (remote : Remote) : M (Remote * option error) :=
  if negb (IsLocalSpecified remote) then
    p <- PortDistributor_GetRandomPort ;;
    match p with
    | Err e => ret (remote, Some e)
    | Ok port =>
        ret ({| Protocol := Protocol remote;
                LocalHost := "0.0.0.0";
                LocalPort := Itoa port;
                RemoteHost := RemoteHost remote;
                RemotePort := RemotePort remote;
                LocalPortRandom := true;
                ACL := ACL remote |}, None)
    end
  else ret (remote, None).

(** The loop of [StartSessionTunnels] over the remotes that are left, with
    the tunnels collected so far.  It returns the session and the remotes
    as they are when the function returns, and the function's result.
    The slice holds pointers; the list holds the values of the remotes
    they point to, one object for every place of the list.  This is what
    the loop does when no remote object occurs twice in the slice: an
    object is assigned to in its own turn only.  A slice with the same
    pointer at two places is not described: there the port that a remote
    got in its first turn is a local port in its second. *)
Fixpoint startTunnels (session : Client) (remotes : list Remote)
    (tunnels : list Tunnel) : M (Client * list Remote * result (list Tunnel)) :=
  match remotes with
  | [] => ret (session, [], Ok tunnels)
  | remote :: rest =>
      a <- assignLocal remote ;;
      let (remote, err) := a in
      match err with
      | Some e => ret (session, remote :: rest, Err e)
      | None =>
          match ParseTunnelACL (ACL remote) with
          | Err e => ret (session, remote :: rest, Err e)
          | Ok acl =>
              s <- StartTunnel session remote acl ;;
              let (session, rt) := s in
              match rt with
              | Err e => ret (session, remote :: rest, Err e)
              | Ok t =>
                  o <- startTunnels session rest (tunnels ++ [t]) ;;
                  let '(session, rest, res) := o in
                  ret (session, remote :: rest, res)
              end
          end
      end
  end.

(** [SessionService.StartSessionTunnels] *)
Definition StartSessionTunnels (session : Client) (remotes : list Remote)
  : M (Client * list Remote * result (list Tunnel)) :=
  err <- PortDistributor_Refresh ;;
  match err with
  | Some e => ret (session, remotes, Err e)
  | None => startTunnels session remotes []
  end.

(** [SessionService.StartClientSession] *)
Definition StartClientSession (sid : string) (sshConn : Conn)
    (req : ConnectionRequest) : M (result Client) :=
  let session := newSession sid sshConn req in
  o <- StartSessionTunnels session (req_Remotes req) ;;
  let '(session, _, res) := o in
  match res with
  | Err e => ret (Err e)
  | Ok _ =>
      err <- Save session ;;
      match err with
      | Some e => ret (Err e)
      | None => ret (Ok session)
      end
  end.

(** [SessionService.Terminate] *)
Definition SessionService_Terminate (session : Client) : M (Client * option error) :=
  fun st =>
    match KeepLostClients (repo st) with
    | None => (err <- Delete session ;; ret (session, err)) st
    | Some _ =>
        (t <- now ;;
         let session := set_DisconnectedAt session (Some t) in
         err <- Save session ;;
         ret (session, err)) st
    end.

(** A caller of a session: one of the two operations on its tunnel list. *)
Inductive SessionOp : Type :=
| OpStartTunnel (r : Remote) (acl : TunnelACL)
| OpTerminateTunnel (t : Tunnel).

Definition runOp (c : Client) (op : SessionOp) : M Client :=
  match op with
  | OpStartTunnel r acl => o <- StartTunnel c r acl ;; ret (fst o)
  | OpTerminateTunnel t => o <- TerminateTunnel c t ;; ret (fst o)
  end.

Fixpoint runOps (c : Client) (ops : list SessionOp) : M Client :=
  match ops with
  | [] => ret c
  | op :: rest => c' <- runOp c op ;; runOps c' rest
  end.

(** ** Statements to be examined

    Three sentences of the specification, written down as they stand. *)

(** A session is obsolete exactly when both pointers are set and at
    least [duration] has passed since it was disconnected. *)
Definition Obsolete_from_boundary (c : Client) (duration : option Duration)
    (st : State World) : Prop :=
  fst (Obsolete c duration st) = true <->
  exists d at_, duration = Some d /\ DisconnectedAt c = Some at_ /\
                d <= fst (time_Now (world st)) - at_.

(** [TerminateTunnel] calls [Terminate], hands its error on and removes
    the tunnel from the list whatever [Terminate] returned. *)
Definition TerminateTunnel_removes_regardless (c : Client) (t : Tunnel)
    (st : State World) : Prop :=
  let e := fst (tunnel_Terminate t (world st)) in
  let '(c', err, st') := TerminateTunnel c t st in
  calls st' = calls st ++ [CallTerminate t e] /\
  err = e /\
  Tunnels c' = Tunnels (removeTunnel c t).

(** When [StartSessionTunnels] fails, [StartClientSession] returns that
    error, saves nothing, and has terminated every tunnel it started. *)
Definition StartClientSession_unwinds (sid : string) (sshConn : Conn)
    (req : ConnectionRequest) (st : State World) : Prop :=
  forall e,
    snd (fst (StartSessionTunnels (newSession sid sshConn req) (req_Remotes req) st))
      = Err e ->
    let (res, st') := StartClientSession sid sshConn req st in
    let made := drop (length (calls st)) (calls st') in
    res = Err e /\
    repo st' = repo st /\
    forall t, CallStart t None ∈ made -> t ∈ terminated made.


End Server.

(** ** Client groups *)

(** Modelled from the spec: the package [cgroups] is not part of the
    sources at hand.  A parameter of a group is an ordered list of
    patterns, each an exact literal or a glob; a parameter with no pattern
    is not specified. *)
Definition Param : Type := string.
Definition ParamValues : Type := list Param.

Record ClientParams : Type := mkClientParams {
  p_ClientID : ParamValues;
  p_Name : ParamValues;
  p_OS : ParamValues;
  p_OSArch : ParamValues;
  p_OSFamily : ParamValues;
  p_OSKernel : ParamValues;
  p_Hostname : ParamValues;
  p_IPv4 : ParamValues;
  p_IPv6 : ParamValues;
  p_Tag : ParamValues;
  p_Version : ParamValues;
  p_Address : ParamValues;
  p_ClientAuthID : ParamValues
}.

Record ClientGroup : Type := mkClientGroup {
  group_ID : string;
  Params : ClientParams
}.

Definition is_empty {A : Type} (l : list A) : bool :=
  match l with [] => true | _ => false end.

(** Modelled from the spec: [ClientParams.HasNoParams] holds when no
    parameter of the group is specified. *)
Definition HasNoParams (p : ClientParams) : bool :=
  is_empty (p_ClientID p) && is_empty (p_Name p) && is_empty (p_OS p) &&
  is_empty (p_OSArch p) && is_empty (p_OSFamily p) && is_empty (p_OSKernel p) &&
  is_empty (p_Hostname p) && is_empty (p_IPv4 p) && is_empty (p_IPv6 p) &&
  is_empty (p_Tag p) && is_empty (p_Version p) && is_empty (p_Address p) &&
  is_empty (p_ClientAuthID p).

Section Groups.
(** Whether a single pattern matches a value. *)
Variable matches : Param -> string -> bool.

(** Modelled from the spec: [ParamValues.MatchesOneOf(values...)].  A
    parameter that is not specified asks for nothing; a specified one asks
    that one of its patterns matches one of the values. *)
Definition MatchesOneOf (p : ParamValues) (values : list string) : bool :=
  match p with
  | [] => true
  | _ => existsb (fun v => existsb (fun pat => matches pat v) p) values
  end.

(** [Client.BelongsTo] *)
Definition BelongsTo (c : Client) (group : ClientGroup) : bool :=
  let p := Params group in
  if HasNoParams p then false
  else if negb (MatchesOneOf (p_ClientID p) [ID c]) then false
  else if negb (MatchesOneOf (p_Name p) [Name c]) then false
  else if negb (MatchesOneOf (p_OS p) [OS c]) then false
  else if negb (MatchesOneOf (p_OSArch p) [OSArch c]) then false
  else if negb (MatchesOneOf (p_OSFamily p) [OSFamily c]) then false
  else if negb (MatchesOneOf (p_OSKernel p) [OSKernel c]) then false
  else if negb (MatchesOneOf (p_Hostname p) [Hostname c]) then false
  else if negb (MatchesOneOf (p_IPv4 p) (IPv4 c)) then false
  else if negb (MatchesOneOf (p_IPv6 p) (IPv6 c)) then false
  else if negb (MatchesOneOf (p_Tag p) (Tags c)) then false
  else if negb (MatchesOneOf (p_Version p) [Version c]) then false
  else if negb (MatchesOneOf (p_Address p) [Address c]) then false
  else if negb (MatchesOneOf (p_ClientAuthID p) [ClientAuthID c]) then false
  else true.

(** [Client.BelongsToOneOf] *)
Definition BelongsToOneOf (c : Client) (groups : list ClientGroup) : bool :=
  existsb (BelongsTo c) groups.

(** A parameter is satisfied by the values of a field when it is not
    specified or one of its patterns matches one of the values. *)
Definition satisfied (p : ParamValues) (values : list string) : Prop :=
  p <> [] -> exists pat v, pat ∈ p /\ v ∈ values /\ matches pat v = true.

End Groups.

(** ** A host to run the code on

    A small stand-in for the outside world, used where the code is run on
    concrete inputs. *)
Module Stub.

Record Host : Type := mkHost {
  listeners : list string;   (* local ports with a listener bound *)
  pool : list Z;             (* ports the distributor may hand out *)
  os_down : bool;            (* the query for busy ports fails *)
  clock : Time
}.

(** Whether a listener is bound on the local port. *)
Definition bound (port : string) (h : Host) : bool :=
  bool_decide (port ∈ listeners h).

Definition addr (r : Remote) : string := LocalHost r +:+ ":" +:+ LocalPort r.

(** Modelled from the spec: [Tunnel.Start] binds a listener on the local
    address of the remote and fails with a bind error when it cannot; here
    it cannot when the port has a listener already. *)
Definition start (t : Tunnel) (h : Host) : option error * Host :=
  let port := LocalPort (tunnel_Remote t) in
  if bound port h then (Some (BindError (addr (tunnel_Remote t))), h)
  else (None, mkHost (port :: listeners h) (pool h) (os_down h) (clock h)).

(** Closing the listener of a tunnel; closing one that is not bound is an
    error. *)
Definition terminate (t : Tunnel) (h : Host) : option error * Host :=
  let port := LocalPort (tunnel_Remote t) in
  if bound port h then
    (None, mkHost (filter (fun p => p <> port) (listeners h)) (pool h)
             (os_down h) (clock h))
  else (Some (OtherError "use of closed network connection"), h).

(** Modelled from the spec: [Refresh] fails when the busy ports cannot be
    read from the host. *)
Definition refresh (h : Host) : option error * Host :=
  if os_down h then (Some OSQueryError, h) else (None, h).

Fixpoint pick (ports : list Z) (h : Host) : option (Z * list Z) :=
  match ports with
  | [] => None
  | p :: rest =>
      if bound (Itoa p) h then
        match pick rest h with
        | Some (q, rest') => Some (q, p :: rest')
        | None => None
        end
      else Some (p, rest)
  end.

(** Modelled from the spec: [GetRandomPort] returns a port of the pool
    that is not busy and takes it out of the pool, or fails when there is
    none; here it takes the first one. *)
Definition getRandomPort (h : Host) : result Z * Host :=
  match pick (pool h) h with
  | Some (p, rest) => (Ok p, mkHost (listeners h) rest (os_down h) (clock h))
  | None => (Err PortExhaustedError, h)
  end.

(** A table for [ParseTunnelACL]: no ACL and the empty string give the
    empty ACL, one network is known, anything else does not parse. *)
Definition parseACL (s : option string) : result TunnelACL :=
  match s with
  | None => Ok []
  | Some s =>
      if bool_decide (s = "") then Ok []
      else if bool_decide (s = "10.0.0.0/8") then Ok [mkIPNet 167772160 8]
      else Err (ACLParseError s)
  end.

(** Modelled from the spec: [Tunnel.Equals] compares local host, local
    port, remote host, remote port and scheme. *)
Definition equals (t : Tunnel) (r : Remote) : bool :=
  let r0 := tunnel_Remote t in
  bool_decide (LocalHost r0 = LocalHost r) &&
  bool_decide (LocalPort r0 = LocalPort r) &&
  bool_decide (RemoteHost r0 = RemoteHost r) &&
  bool_decide (RemotePort r0 = RemotePort r) &&
  bool_decide (Protocol r0 = Protocol r).

(** Modelled from the spec: a remote has its local side specified when
    its local port is not empty. *)
Definition isLocalSpecified (r : Remote) : bool :=
  negb (bool_decide (LocalPort r = "")).

#[global] Instance host : Collaborators Host := {|
  IsLocalSpecified := isLocalSpecified;
  tunnel_Equals := equals;
  ParseTunnelACL := parseACL;
  tunnel_Start := start;
  tunnel_Terminate := terminate;
  pd_Refresh := refresh;
  pd_GetRandomPort := getRandomPort;
  time_Now := fun h => (clock h, h)
|}.

Definition remote (lport rhost rport : string) : Remote :=
  mkRemote "" (if bool_decide (lport = "") then "" else "0.0.0.0") lport
    rhost rport false None.

Definition request (remotes : list Remote) : ConnectionRequest :=
  mkConnectionRequest "agent" [] "linux" "host-1" "0.1.0" [] [] remotes.

Definition conn : Conn := mkConn "192.0.2.7:40022".

Definition init (ls : list string) (ports : list Z) (keep : option Duration)
  : State Host :=
  mkState (mkHost ls ports false 1000) (mkRepo ∅ keep) [].

End Stub.

(** ** Ordered tunnel lists *)

(** The IDs of [ts] are the numerals of integers that grow strictly along
    the list and lie above [lo] and not above [hi]. *)
Fixpoint ascending (lo hi : Z) (ts : list Tunnel) : Prop :=
  match ts with
  | [] => True
  | t :: rest =>
      exists n, tunnel_ID t = FormatInt n /\ lo < n <= hi /\ ascending n hi rest
  end.

(** From session [c] in state [st] to session [c'] in state [st'] at most
    [k] IDs were allocated: the counter went up by that many; the calls
    made in between started tunnels whose IDs are the numerals of the
    counter values passed, in that order; a tunnel list that was
    ascending below the old counter is ascending below the new one; and
    the numeral of a number not above the old counter that was on no
    tunnel of the list is on none afterwards. *)
Definition grows {World : Type} (k : Z) (c : Client) (st : State World)
    (c' : Client) (st' : State World) : Prop :=
  tunnelIDAutoIncrement c <= tunnelIDAutoIncrement c' <= tunnelIDAutoIncrement c + k /\
  (exists made,
    calls st' = calls st ++ made /\
    tunnel_ID <$> started made =
      FormatInt <$> seqZ (tunnelIDAutoIncrement c + 1)
                      (tunnelIDAutoIncrement c' - tunnelIDAutoIncrement c)) /\
  (ascending 0 (tunnelIDAutoIncrement c) (Tunnels c) ->
   ascending 0 (tunnelIDAutoIncrement c') (Tunnels c')) /\
  (forall n, n <= tunnelIDAutoIncrement c ->
     (forall t, t ∈ Tunnels c -> tunnel_ID t <> FormatInt n) ->
     forall t, t ∈ Tunnels c' -> tunnel_ID t <> FormatInt n).

(** ** Remotes with an assigned port *)

(** [remote'] is [remote] with the local port [port] assigned the way
    [StartSessionTunnels] assigns it. *)
Definition port_assigned (remote remote' : Remote) (port : Z) : Prop :=
  LocalPort remote' = Itoa port /\
  LocalHost remote' = "0.0.0.0" /\
  LocalPortRandom remote' = true /\
  Protocol remote' = Protocol remote /\
  RemoteHost remote' = RemoteHost remote /\
  RemotePort remote' = RemotePort remote /\
  ACL remote' = ACL remote.

(** ** More of [client.go] *)

(** [Client.Banner]: the ID, then the name in parentheses when there is
    one, then every tag behind a hash sign. *)
Definition Banner (c : Client) : string :=
  let banner := ID c in
  let banner :=
    if bool_decide (Name c <> "") then banner +:+ " (" +:+ Name c +:+ ")"
    else banner in
  if bool_decide (length (Tags c) <> 0%nat)
  then fold_left (fun banner t => banner +:+ " #" +:+ t) (Tags c) banner
  else banner.

(** The answers of [GetRandomPort] among the calls, in call order. *)
Definition port_requests (l : list Call) : list (result Z) :=
  omap (fun c => match c with CallGetRandomPort p => Some p | _ => None end) l.

(** The tunnels whose [Start] returned no error, in call order. *)
Definition started_ok (l : list Call) : list Tunnel :=
  omap (fun c => match c with CallStart t None => Some t | _ => None end) l.

(** A call to the port distributor for a port or to a tunnel to start. *)
Definition port_or_start (ev : Call) : Prop :=
  match ev with
  | CallGetRandomPort _ | CallStart _ _ => True
  | _ => False
  end.

(** The fields of a client that say who it is: all but the tunnel list,
    the disconnection time and the ID counter. *)
Definition same_identity (c c' : Client) : Prop :=
  ID c' = ID c /\ Name c' = Name c /\ OS c' = OS c /\ OSArch c' = OSArch c /\
  OSFamily c' = OSFamily c /\ OSKernel c' = OSKernel c /\
  Hostname c' = Hostname c /\ IPv4 c' = IPv4 c /\ IPv6 c' = IPv6 c /\
  Tags c' = Tags c /\ Version c' = Version c /\ Address c' = Address c /\
  ClientAuthID c' = ClientAuthID c /\ Connection c' = Connection c.

(** Whether a Go result carries a value and no error. *)
Definition succeeded {A : Type} (r : result A) : bool :=
  match r with Ok _ => true | Err _ => false end.

(** How [StartSessionTunnels] leaves a remote of the request: when [r]
    has a local port, [r'] is [r]; when it has none and the run went
    through, [r'] is [r] with a port that one of the calls [made] to the
    port distributor returned. *)
Definition kept_or_assigned {World : Type} `{Collaborators World}
    (made : list Call) (ok : bool) (r r' : Remote) : Prop :=
  if IsLocalSpecified r then r' = r
  else if ok
       then exists port, port_assigned r r' port /\ Ok port ∈ port_requests made
       else True.

(** ** [cmd/rportd/main.go]

    [main] from the point where [flag.Parse] has returned: the values of
    the flags, the number of arguments left over, the environment, and the
    secret [generateJWTSecret] would return ([None] when reading random
    bytes fails).  It ends by leaving the process or by handing a
    configuration and two addresses to [NewServer] and [Run]. *)
Record Flags : Type := mkFlags {
  flag_listen : string;
  flag_p : string;
  flag_port : string;
  flag_key : string;
  flag_authfile : string;
  flag_auth : string;
  flag_proxy : string;
  flag_api_addr : string;
  flag_api_auth : string;
  flag_api_jwt_secret : string;
  flag_doc_root : string;
  flag_v : bool;
  flag_version : bool;
  NArg : nat
}.

(** The fields of [chserver.Config] that [main] sets. *)
Record Config : Type := mkConfig {
  KeySeed : string;
  AuthFile : string;
  Auth : string;
  Proxy : string;
  Verbose : bool;
  APIAuth : string;
  APIJWTSecret : string;
  DocRoot : string
}.

(** What [main] prints before it exits. *)
Inductive Printed : Type :=
| PrintBuildVersion
| PrintUnsupported
| PrintServerHelp.

Inductive Fatal : Type :=
| FatalNoSecret
| FatalDocRootWithoutAPI.

Inductive Outcome : Type :=
| Exit (out : list Printed) (code : Z)
| LogFatal (why : Fatal)
| Serve (cfg : Config) (addr : string) (apiAddr : string).

(** The status with which [main] ends the process before it comes to
    [NewServer]: the argument of [os.Exit], and 1 for [log.Fatal], which
    prints and calls [os.Exit(1)]; none when [main] goes on to make and
    run the server. *)
Definition exit_status (o : Outcome) : option Z :=
  match o with
  | Exit _ code => Some code
  | LogFatal _ => Some 1
  | Serve _ _ _ => None
  end.

(** [os.Getenv]: the value of the variable, empty when it is not set. *)
Definition Getenv (env : gmap string string) (key : string) : string :=
  default "" (env !! key).

(** [if *v == "" { *v = alt }] *)
Definition ifEmpty (v alt : string) : string :=
  if bool_decide (v = "") then alt else v.

Definition main (f : Flags) (env : gmap string string)
    (generateJWTSecret : option string) : Outcome :=
  if flag_version f then Exit [PrintBuildVersion] 1
  else if bool_decide (0 < NArg f)%nat then Exit [PrintUnsupported; PrintServerHelp] 1
  else
    let listenInterface := ifEmpty (flag_listen f) (Getenv env "RPORT_LISTEN") in
    let listenInterface := ifEmpty listenInterface "0.0.0.0" in
    let port := ifEmpty (flag_port f) (flag_p f) in
    let port := ifEmpty port (Getenv env "RPORT_PORT") in
    let port := ifEmpty port "8080" in
    let key := ifEmpty (flag_key f) (Getenv env "RPORT_KEY") in
    let apiAddr := ifEmpty (flag_api_addr f) (Getenv env "RPORT_API_ADDR") in
    let apiAuth := ifEmpty (flag_api_auth f) (Getenv env "RPORT_API_AUTH") in
    let apiJWTSecret :=
      ifEmpty (flag_api_jwt_secret f) (Getenv env "RPORT_API_JWT_SECRET") in
    let secret :=
      if bool_decide (apiJWTSecret = "") then generateJWTSecret
      else Some apiJWTSecret in
    match secret with
    | None => LogFatal FatalNoSecret
    | Some apiJWTSecret =>
        if bool_decide (flag_doc_root f <> "") && bool_decide (apiAddr = "")
        then LogFatal FatalDocRootWithoutAPI
        else
          Serve {| KeySeed := key;
                   AuthFile := flag_authfile f;
                   Auth := flag_auth f;
                   Proxy := flag_proxy f;
                   Verbose := flag_v f;
                   APIAuth := apiAuth;
                   APIJWTSecret := apiJWTSecret;
                   DocRoot := flag_doc_root f |}
                (listenInterface +:+ ":" +:+ port) apiAddr
    end.

(** A command line without any flag or argument. *)
Definition no_flags : Flags :=
  mkFlags "" "" "" "" "" "" "" "" "" "" "" false false 0.

(** The first string of a list that is not empty, and the empty string
    when there is none. *)
Fixpoint firstNonEmpty (l : list string) : string :=
  match l with
  | [] => ""
  | s :: rest => if bool_decide (s = "") then firstNonEmpty rest else s
  end.

(** The variables of the environment that [main] reads. *)
Definition main_variables : list string :=
  ["RPORT_LISTEN"; "RPORT_PORT"; "RPORT_KEY"; "RPORT_API_ADDR";
   "RPORT_API_AUTH"; "RPORT_API_JWT_SECRET"].

(** * Properties *)

(** ** Numerals and the counter *)

Lemma Atoi_FormatInt (n : Z) : Atoi (FormatInt n) = Some n.
Proof.
  unfold Atoi, FormatInt.
  rewrite NilZero.isi.
  - by rewrite DecimalZ.of_to.
  - destruct n as [|p|p]; simpl; try discriminate.
    intros E. injection E as E. by apply (Unsigned.to_uint_nonnil p).
  - destruct n as [|p|p]; simpl; try discriminate.
    intros E. injection E as E. by apply (Unsigned.to_uint_nonnil p).
Qed.

Lemma FormatInt_inj (n m : Z) : FormatInt n = FormatInt m -> n = m.
Proof.
  intros E. generalize (Atoi_FormatInt n). rewrite E, Atoi_FormatInt.
  congruence.
Qed.

Lemma wrap64_small (z : Z) : min_int64 <= z <= max_int64 -> wrap64 z = z.
Proof.
  unfold wrap64, min_int64, max_int64. intros Hz.
  rewrite Z.mod_small; lia.
Qed.

Lemma generateNewTunnelID_next (c : Client) :
  0 <= tunnelIDAutoIncrement c < max_int64 ->
  generateNewTunnelID c =
    (set_tunnelIDAutoIncrement c (tunnelIDAutoIncrement c + 1),
     tunnelIDAutoIncrement c + 1).
Proof.
  intros Hc. unfold generateNewTunnelID.
  rewrite wrap64_small; [done|]. unfold min_int64, max_int64 in *. lia.
Qed.

(** ** Removing a tunnel *)

Lemma fold_left_keep {A : Type} (P : A -> Prop) `{!forall x, Decision (P x)}
    (l acc : list A) :
  fold_left (fun result curr => if bool_decide (P curr) then result ++ [curr] else result)
    l acc = acc ++ filter P l.
Proof.
  revert acc. induction l as [|x l IH]; intros acc; simpl.
  - by rewrite app_nil_r.
  - rewrite IH, filter_cons. case_bool_decide.
    + rewrite decide_True by done. by rewrite <- app_assoc.
    + by rewrite decide_False by done.
Qed.

Lemma removeTunnel_filter (c : Client) (t : Tunnel) :
  Tunnels (removeTunnel c t) =
    filter (fun curr => tunnel_ID curr <> tunnel_ID t) (Tunnels c).
Proof. unfold removeTunnel. simpl. by rewrite fold_left_keep. Qed.

(** C10.  [removeTunnel] removes by ID, not by object: the list it leaves
    is the old list without the tunnels that carry the ID of [t], those
    with another ID all stay, and the ones that stay keep their order (the
    new list is the old one filtered, hence a sublist of it).  A tunnel
    that has the ID of [t] goes even when it is not [t] itself. *)
Theorem removeTunnel_by_ID (c : Client) (t : Tunnel) :
  Tunnels (removeTunnel c t) =
    filter (fun curr => tunnel_ID curr <> tunnel_ID t) (Tunnels c) /\
  (forall u, u ∈ Tunnels (removeTunnel c t) <->
             u ∈ Tunnels c /\ tunnel_ID u <> tunnel_ID t) /\
  (forall u, tunnel_ID u = tunnel_ID t -> u ∉ Tunnels (removeTunnel c t)) /\
  Tunnels (removeTunnel c t) `sublist_of` Tunnels c.
Proof.
  rewrite removeTunnel_filter. split; [done|]. split; [|split].
  - intros u. rewrite list_elem_of_filter. tauto.
  - intros u Hu. rewrite list_elem_of_filter. tauto.
  - apply sublist_filter.
Qed.

(** ** The methods of a client *)

Section ClientProperties.
Context {World : Type} `{Collaborators World}.
Implicit Types (c : Client) (t : Tunnel) (r : Remote) (st : State World).

Lemma findByRemote_Some (ts : list Tunnel) r t :
  findByRemote ts r = Some t -> t ∈ ts /\ tunnel_Equals t r = true.
Proof.
  induction ts as [|curr rest IH]; simpl; [done|].
  destruct (tunnel_Equals curr r) eqn:E.
  - intros [= <-]. split; [apply list_elem_of_here | done].
  - intros Hf. destruct (IH Hf) as [Hin Heq].
    split; [by apply list_elem_of_further | done].
Qed.

Lemma findByRemote_None (ts : list Tunnel) r :
  findByRemote ts r = None <-> forall t, t ∈ ts -> tunnel_Equals t r = false.
Proof.
  induction ts as [|curr rest IH]; simpl.
  - split; [|done]. intros _ t Ht. by apply elem_of_nil in Ht.
  - destruct (tunnel_Equals curr r) eqn:E.
    + split; [done|]. intros Hall.
      specialize (Hall curr (list_elem_of_here _ _)). congruence.
    + rewrite IH. split.
      * intros Hall t Ht. apply elem_of_cons in Ht as [->|Ht]; auto.
      * intros Hall t Ht. apply Hall. by apply list_elem_of_further.
Qed.

(** C3, as the code has it.  [Obsolete] returns true exactly when the
    duration is set, the session has a disconnection time, and strictly
    more than the duration has passed since then: the deadline
    [DisconnectedAt + duration] must lie before the current time.  At the
    boundary, when exactly the duration has passed, the session is not
    obsolete yet. *)
Theorem Obsolete_iff_longer c (duration : option Duration) st :
  fst (Obsolete c duration st) = true <->
  exists d at_, duration = Some d /\ DisconnectedAt c = Some at_ /\
                d < fst (time_Now (world st)) - at_.
Proof.
  unfold Obsolete.
  destruct duration as [d|]; [|split; [done | intros (? & ? & [=] & _)]].
  destruct (DisconnectedAt c) as [at_|];
    [|split; [done | intros (? & ? & _ & [=] & _)]].
  unfold bind, now, outside, ret.
  destruct (time_Now (world st)) as [n w]. simpl.
  unfold Time_Before, Time_Add. rewrite Z.ltb_lt. split.
  - intros Hlt. exists d, at_. repeat split; lia.
  - intros (d' & at' & [= <-] & [= <-] & Hlt). lia.
Qed.

(** C2, as the code has it.  [TerminateTunnel] makes exactly one outside
    call, [Terminate] on the tunnel, and returns what that call returned.
    The tunnel is taken off the list, by ID, only when [Terminate]
    returned no error; when it returned an error the session is left as it
    was. *)
Theorem TerminateTunnel_removes_on_success c t st :
  let e := fst (tunnel_Terminate t (world st)) in
  let '(c', err, st') := TerminateTunnel c t st in
  calls st' = calls st ++ [CallTerminate t e] /\
  world st' = snd (tunnel_Terminate t (world st)) /\
  repo st' = repo st /\
  err = e /\
  c' = match e with
       | None => removeTunnel c t
       | Some _ => c
       end.
Proof.
  unfold TerminateTunnel, bind, Tunnel_Terminate, outside, ret.
  destruct (tunnel_Terminate t (world st)) as [[e|] w]; simpl; done.
Qed.

(** C4.  When some tunnel on the list equals the remote, [StartTunnel]
    returns a tunnel of the list that equals the remote, with no error:
    the first such tunnel, which is the tunnel itself when no other tunnel
    of the list equals the remote.  The session is returned as it was, so
    no ID is allocated and the list is the same, and nothing outside is
    called. *)
Theorem StartTunnel_existing c r (acl : TunnelACL) st :
  (exists t, t ∈ Tunnels c /\ tunnel_Equals t r = true) ->
  (exists t, t ∈ Tunnels c /\ tunnel_Equals t r = true /\
             FindTunnelByRemote c r = Some t /\
             StartTunnel c r acl st = ((c, Ok t), st)) /\
  (forall t, t ∈ Tunnels c -> tunnel_Equals t r = true ->
             (forall u, u ∈ Tunnels c -> tunnel_Equals u r = true -> u = t) ->
             StartTunnel c r acl st = ((c, Ok t), st)).
Proof.
  intros (t0 & Hin & Heq).
  assert (exists t, t ∈ Tunnels c /\ tunnel_Equals t r = true /\
                    FindTunnelByRemote c r = Some t /\
                    StartTunnel c r acl st = ((c, Ok t), st)) as Hfirst.
  { unfold StartTunnel, FindTunnelByRemote.
    destruct (findByRemote (Tunnels c) r) as [t|] eqn:Hf.
    - destruct (findByRemote_Some _ _ _ Hf) as [Ht1 Ht2]. by exists t.
    - rewrite findByRemote_None in Hf. specialize (Hf t0 Hin). congruence. }
  split; [exact Hfirst|].
  intros t Ht Hteq Honly. destruct Hfirst as (u & Hu & Hueq & _ & Hrun).
  by rewrite <- (Honly u Hu Hueq).
Qed.

End ClientProperties.

(** ** The session service *)

Section ServiceProperties.
Context {World : Type} `{Collaborators World}.
Implicit Types (c session : Client) (t : Tunnel) (r remote : Remote)
  (st : State World).

Lemma terminated_snoc (l : list Call) (ev : Call) :
  (forall t e, ev <> CallTerminate t e) ->
  terminated (l ++ [ev]) = terminated l.
Proof.
  intros Hev. unfold terminated. rewrite omap_app. simpl.
  destruct ev; try by rewrite app_nil_r. by destruct (Hev t e).
Qed.

Lemma StartTunnel_quiet c r (acl : TunnelACL) st :
  repo (snd (StartTunnel c r acl st)) = repo st /\
  terminated (calls (snd (StartTunnel c r acl st))) = terminated (calls st).
Proof.
  unfold StartTunnel. destruct (FindTunnelByRemote c r); [done|].
  unfold generateNewTunnelID, bind, Tunnel_Start, outside, ret.
  destruct (tunnel_Start _ (world st)) as [[e|] w]; simpl;
    (split; [done | by apply terminated_snoc]).
Qed.

Lemma assignLocal_quiet remote st :
  repo (snd (assignLocal remote st)) = repo st /\
  terminated (calls (snd (assignLocal remote st))) = terminated (calls st).
Proof.
  unfold assignLocal. destruct (IsLocalSpecified remote); simpl; [done|].
  unfold bind, PortDistributor_GetRandomPort, outside, ret.
  destruct (pd_GetRandomPort (world st)) as [[port|e] w]; simpl;
    (split; [done | by apply terminated_snoc]).
Qed.

Lemma startTunnels_quiet (remotes : list Remote) :
  forall session (tunnels : list Tunnel) st,
    repo (snd (startTunnels session remotes tunnels st)) = repo st /\
    terminated (calls (snd (startTunnels session remotes tunnels st)))
      = terminated (calls st).
Proof.
  induction remotes as [|remote rest IH]; intros session tunnels st; [done|].
  simpl. unfold bind.
  pose proof (assignLocal_quiet remote st) as [Hr1 Ht1].
  destruct (assignLocal remote st) as [[remote' [e|]] st1]; simpl in *; [done|].
  destruct (ParseTunnelACL (ACL remote')) as [acl|e]; simpl; [|done].
  pose proof (StartTunnel_quiet session remote' acl st1) as [Hr2 Ht2].
  destruct (StartTunnel session remote' acl st1) as [[session' [t|e]] st2];
    simpl in *; [|split; congruence].
  pose proof (IH session' (tunnels ++ [t]) st2) as [Hr3 Ht3].
  destruct (startTunnels session' rest (tunnels ++ [t]) st2) as [[[s3 rs3] res3] st3].
  simpl in *. split; congruence.
Qed.

Lemma StartSessionTunnels_quiet session (remotes : list Remote) st :
  repo (snd (StartSessionTunnels session remotes st)) = repo st /\
  terminated (calls (snd (StartSessionTunnels session remotes st)))
    = terminated (calls st).
Proof.
  unfold StartSessionTunnels, bind, PortDistributor_Refresh, outside, ret.
  destruct (pd_Refresh (world st)) as [[e|] w]; simpl.
  - split; [done | by apply terminated_snoc].
  - match goal with |- context [startTunnels ?s ?rs ?ts ?st0] =>
      pose proof (startTunnels_quiet rs s ts st0) as [Hr Ht] end.
    simpl in *. split; [done|]. rewrite Ht. by apply terminated_snoc.
Qed.

(** C1, as the code has it.  When [StartSessionTunnels] returns an error,
    [StartClientSession] returns that error and stops there: the state it
    leaves is the one [StartSessionTunnels] left, the repository is what it
    was, so the session is not saved, and no [Terminate] call has been made
    on any tunnel, so the tunnels started before the failure stay
    started. *)
Theorem StartClientSession_error (sid : string) (sshConn : Conn)
    (req : ConnectionRequest) st (e : error) :
  snd (fst (StartSessionTunnels (newSession sid sshConn req) (req_Remotes req) st))
    = Err e ->
  StartClientSession sid sshConn req st =
    (Err e, snd (StartSessionTunnels (newSession sid sshConn req) (req_Remotes req) st)) /\
  repo (snd (StartClientSession sid sshConn req st)) = repo st /\
  terminated (calls (snd (StartClientSession sid sshConn req st)))
    = terminated (calls st).
Proof.
  intros He.
  pose proof (StartSessionTunnels_quiet (newSession sid sshConn req)
                (req_Remotes req) st) as [Hr Ht].
  assert (StartClientSession sid sshConn req st =
    (Err e, snd (StartSessionTunnels (newSession sid sshConn req) (req_Remotes req) st)))
    as Heq.
  { unfold StartClientSession, bind.
    destruct (StartSessionTunnels _ _ st) as [[[s rs] res] st1].
    simpl in He. by subst res. }
  rewrite Heq. done.
Qed.

(** C8.  [Terminate] of the service looks at the retention setting of the
    repository.  Without one it deletes the entry under the session's ID,
    so that a lookup of the ID finds nothing, and does not read the clock.
    With one it reads the clock, sets the session's disconnection time to
    that instant and saves the session: a lookup of the ID finds the
    session with its state [Disconnected], and the lookup for active
    sessions finds nothing.  The retention setting itself stays, and no
    error is returned. *)
Theorem SessionService_Terminate_retention session st :
  let '(session', err, st') := SessionService_Terminate session st in
  err = None /\
  KeepLostClients (repo st') = KeepLostClients (repo st) /\
  match KeepLostClients (repo st) with
  | None =>
      session' = session /\
      sessions (repo st') = delete (ID session) (sessions (repo st)) /\
      repo_GetByID (repo st') (ID session) = None /\
      calls st' = calls st /\ world st' = world st
  | Some _ =>
      let t := fst (time_Now (world st)) in
      session' = set_DisconnectedAt session (Some t) /\
      sessions (repo st') = <[ID session := session']> (sessions (repo st)) /\
      repo_GetByID (repo st') (ID session) = Some session' /\
      ConnectionState_of session' = Disconnected /\
      repo_GetActiveByID (repo st') (ID session) = None /\
      calls st' = calls st ++ [CallNow t]
  end.
Proof.
  unfold SessionService_Terminate.
  destruct (KeepLostClients (repo st)) as [d|] eqn:Hk.
  - unfold bind, now, outside, Save, ret, repo_Save, repo_GetByID,
      repo_GetActiveByID.
    destruct (time_Now (world st)) as [t w]. simpl.
    rewrite lookup_insert_eq. simpl. done.
  - unfold bind, Delete, ret, repo_Delete, repo_GetByID. simpl.
    rewrite lookup_delete_eq. done.
Qed.

End ServiceProperties.

(** ** Membership in a client group *)

Section GroupProperties.
Variable matches : Param -> string -> bool.

Lemma MatchesOneOf_satisfied (p : ParamValues) (values : list string) :
  MatchesOneOf matches p values = true <-> satisfied matches p values.
Proof.
  unfold MatchesOneOf, satisfied. destruct p as [|pat0 p]; [done|].
  rewrite existsb_exists. split.
  - intros (v & Hv & Hex) _. apply existsb_exists in Hex as (pat & Hpat & Hm).
    exists pat, v. by rewrite <- !list_elem_of_In in *.
  - intros Hs. destruct Hs as (pat & v & Hpat & Hv & Hm); [done|].
    exists v. rewrite existsb_exists. split; [by apply list_elem_of_In|].
    exists pat. split; [by apply list_elem_of_In | done].
Qed.

(** C9.  A group without any parameter has no member.  A group with a
    parameter has the client as a member exactly when each of its thirteen
    parameters is satisfied by the field of the client it stands for: a
    parameter that is not specified is satisfied; a specified one needs one
    of its patterns to match the value of the field, or, for the
    addresses and the tags, one of the values of the field. *)
Theorem BelongsTo_iff (c : Client) (group : ClientGroup) :
  let p := Params group in
  (HasNoParams p = true -> BelongsTo matches c group = false) /\
  (HasNoParams p = false ->
   (BelongsTo matches c group = true <->
    satisfied matches (p_ClientID p) [ID c] /\
    satisfied matches (p_Name p) [Name c] /\
    satisfied matches (p_OS p) [OS c] /\
    satisfied matches (p_OSArch p) [OSArch c] /\
    satisfied matches (p_OSFamily p) [OSFamily c] /\
    satisfied matches (p_OSKernel p) [OSKernel c] /\
    satisfied matches (p_Hostname p) [Hostname c] /\
    satisfied matches (p_IPv4 p) (IPv4 c) /\
    satisfied matches (p_IPv6 p) (IPv6 c) /\
    satisfied matches (p_Tag p) (Tags c) /\
    satisfied matches (p_Version p) [Version c] /\
    satisfied matches (p_Address p) [Address c] /\
    satisfied matches (p_ClientAuthID p) [ClientAuthID c])).
Proof.
  intros p. unfold BelongsTo. fold p. split; intros Hno; rewrite Hno; [done|].
  rewrite <- !MatchesOneOf_satisfied.
  repeat match goal with
         | |- context [MatchesOneOf matches ?a ?b] =>
             destruct (MatchesOneOf matches a b); simpl;
             [|split; [done | intros Hc; decompose [and] Hc; discriminate]]
         end.
  done.
Qed.

End GroupProperties.

(** ** Tunnel IDs *)

Lemma ascending_lower (lo lo' hi : Z) (ts : list Tunnel) :
  lo' <= lo -> ascending lo hi ts -> ascending lo' hi ts.
Proof.
  destruct ts as [|t rest]; simpl; [done|].
  intros Hlo (n & Hid & Hn & Hrest). exists n. repeat split; [done|lia|lia|done].
Qed.

Lemma ascending_raise (lo hi hi' : Z) (ts : list Tunnel) :
  hi <= hi' -> ascending lo hi ts -> ascending lo hi' ts.
Proof.
  revert lo. induction ts as [|t rest IH]; simpl; [done|].
  intros lo Hhi (n & Hid & Hn & Hrest). exists n.
  repeat split; [done|lia|lia|]. by apply IH.
Qed.

Lemma ascending_snoc (lo hi : Z) (ts : list Tunnel) (t : Tunnel) :
  lo <= hi -> tunnel_ID t = FormatInt (hi + 1) ->
  ascending lo hi ts -> ascending lo (hi + 1) (ts ++ [t]).
Proof.
  revert lo. induction ts as [|u rest IH]; simpl; intros lo Hlo Hid.
  - intros _. exists (hi + 1). repeat split; [done|lia|lia].
  - intros (n & Hu & Hn & Hrest). exists n.
    repeat split; [done|lia|lia|]. apply IH; [lia|done|done].
Qed.

Lemma ascending_filter (P : Tunnel -> Prop) `{!forall x, Decision (P x)}
    (lo hi : Z) (ts : list Tunnel) :
  ascending lo hi ts -> ascending lo hi (filter P ts).
Proof.
  revert lo. induction ts as [|u rest IH]; simpl; intros lo; [done|].
  intros (n & Hu & Hn & Hrest). rewrite filter_cons.
  destruct (decide (P u)).
  - exists n. repeat split; [done|lia|lia|]. by apply IH.
  - apply (ascending_lower n); [lia|]. by apply IH.
Qed.

Lemma ascending_elem (lo hi : Z) (ts : list Tunnel) (t : Tunnel) :
  ascending lo hi ts -> t ∈ ts ->
  exists n, tunnel_ID t = FormatInt n /\ lo < n <= hi.
Proof.
  revert lo. induction ts as [|u rest IH]; simpl; intros lo Hasc Hin.
  - by apply elem_of_nil in Hin.
  - destruct Hasc as (n & Hu & Hn & Hrest).
    apply elem_of_cons in Hin as [->|Hin]; [by exists n|].
    destruct (IH n Hrest Hin) as (m & Hm & Hrange). exists m. split; [done|lia].
Qed.

Lemma ascending_lookup (lo hi : Z) (ts : list Tunnel) (i j : nat) (t1 t2 : Tunnel) :
  ascending lo hi ts -> (i < j)%nat ->
  ts !! i = Some t1 -> ts !! j = Some t2 ->
  exists n1 n2, tunnel_ID t1 = FormatInt n1 /\ tunnel_ID t2 = FormatInt n2 /\
                lo < n1 /\ n1 < n2 /\ n2 <= hi.
Proof.
  revert lo i j. induction ts as [|u rest IH]; intros lo i j Hasc Hij Hi Hj.
  - done.
  - simpl in Hasc. destruct Hasc as (n & Hu & Hn & Hrest).
    destruct j as [|j]; [lia|]. simpl in Hj. destruct i as [|i].
    + simpl in Hi. injection Hi as <-.
      assert (t2 ∈ rest) as Hin by (apply list_elem_of_lookup; eauto).
      destruct (ascending_elem _ _ _ _ Hrest Hin) as (m & Hm & Hrange).
      exists n, m. repeat split; [done|done|lia|lia|lia].
    + simpl in Hi.
      destruct (IH n i j Hrest ltac:(lia) Hi Hj) as (n1 & n2 & H1 & H2 & Hr).
      exists n1, n2. repeat split; [done|done|lia|lia|lia].
Qed.

Section Allocation.
Context {World : Type} `{Collaborators World}.
Implicit Types (c : Client) (t : Tunnel) (r : Remote) (st : State World).

Lemma grows_refl c st : grows 0 c st c st.
Proof.
  split; [lia|]. split; [|done]. exists []. rewrite app_nil_r, Z.sub_diag.
  by rewrite seqZ_nil.
Qed.

Lemma grows_more (k k' : Z) c st c' st' :
  k <= k' -> grows k c st c' st' -> grows k' c st c' st'.
Proof. intros Hk [Hc Hrest]. split; [lia | done]. Qed.

Lemma grows_trans (k1 k2 : Z) c st c1 st1 c2 st2 :
  grows k1 c st c1 st1 -> grows k2 c1 st1 c2 st2 ->
  grows (k1 + k2) c st c2 st2.
Proof.
  intros [Hc1 ((m1 & Hm1 & Hs1) & Ha1 & Hn1)] [Hc2 ((m2 & Hm2 & Hs2) & Ha2 & Hn2)].
  split; [lia|]. split; [|split].
  - exists (m1 ++ m2). split.
    + by rewrite Hm2, Hm1, app_assoc.
    + unfold started in *. rewrite omap_app, fmap_app, Hs1, Hs2, <- fmap_app.
      f_equal.
      replace (tunnelIDAutoIncrement c2 - tunnelIDAutoIncrement c)
        with ((tunnelIDAutoIncrement c1 - tunnelIDAutoIncrement c) +
              (tunnelIDAutoIncrement c2 - tunnelIDAutoIncrement c1)) by lia.
      rewrite seqZ_app by lia. do 2 f_equal. lia.
  - auto.
  - intros n Hn Hfree. apply Hn2; [lia|]. by apply Hn1.
Qed.

Lemma grows_one_call c st (w : World) (ev : Call) :
  (forall t e, ev <> CallStart t e) ->
  exists made,
    calls (mkState w (repo st) (calls st ++ [ev])) = calls st ++ made /\
    tunnel_ID <$> started made =
      FormatInt <$> seqZ (tunnelIDAutoIncrement c + 1)
                      (tunnelIDAutoIncrement c - tunnelIDAutoIncrement c).
Proof.
  intros Hev. exists [ev]. split; [done|].
  rewrite Z.sub_diag, seqZ_nil by lia.
  destruct ev; try done. by destruct (Hev t e).
Qed.

Lemma StartTunnel_grows c r (acl : TunnelACL) st :
  0 <= tunnelIDAutoIncrement c < max_int64 ->
  grows 1 c st (fst (fst (StartTunnel c r acl st))) (snd (StartTunnel c r acl st)).
Proof.
  intros Hc. unfold StartTunnel.
  destruct (FindTunnelByRemote c r).
  { simpl. apply (grows_more 0); [lia | apply grows_refl]. }
  rewrite generateNewTunnelID_next by done.
  unfold bind, Tunnel_Start, outside, ret.
  assert (forall x : Z, x + 1 - x = 1) as Hone by (intros; lia).
  destruct (tunnel_Start _ (world st)) as [[e|] w]; simpl.
  - split; [simpl; lia|]. split; [|split].
    + eexists. split; [reflexivity|]. simpl. by rewrite Hone.
    + simpl. apply ascending_raise. lia.
    + done.
  - split; [simpl; lia|]. split; [|split].
    + eexists. split; [reflexivity|]. simpl. by rewrite Hone.
    + simpl. intros Hasc. apply ascending_snoc; [lia|done|done].
    + simpl. intros n Hn Hfree t Ht.
      apply elem_of_app in Ht as [Ht|Ht]; [by apply Hfree|].
      apply list_elem_of_singleton in Ht as ->. simpl.
      intros Heq. apply FormatInt_inj in Heq. lia.
Qed.

Lemma TerminateTunnel_grows c t st :
  grows 0 c st (fst (fst (TerminateTunnel c t st))) (snd (TerminateTunnel c t st)).
Proof.
  unfold TerminateTunnel, bind, Tunnel_Terminate, outside, ret.
  destruct (tunnel_Terminate t (world st)) as [[e|] w]; simpl.
  - split; [lia|]. split; [by apply grows_one_call|done].
  - split; [simpl; lia|]. split; [by apply (grows_one_call c)|].
    simpl. rewrite fold_left_keep. simpl. split.
    + apply ascending_filter.
    + intros n Hn Hfree u Hu. apply list_elem_of_filter in Hu as [_ Hu].
      by apply Hfree.
Qed.

Lemma runOp_grows c (op : SessionOp) st :
  0 <= tunnelIDAutoIncrement c < max_int64 ->
  grows 1 c st (fst (runOp c op st)) (snd (runOp c op st)).
Proof.
  intros Hc. destruct op as [r acl|t]; simpl; unfold bind, ret.
  - pose proof (StartTunnel_grows c r acl st Hc) as Hg.
    by destruct (StartTunnel c r acl st) as [[c' res] st'].
  - pose proof (TerminateTunnel_grows c t st) as Hg.
    destruct (TerminateTunnel c t st) as [[c' res] st']. simpl in *.
    apply (grows_more 0); [lia | done].
Qed.

Lemma runOps_grows (ops : list SessionOp) :
  forall c st,
    0 <= tunnelIDAutoIncrement c ->
    tunnelIDAutoIncrement c + Z.of_nat (length ops) <= max_int64 ->
    grows (Z.of_nat (length ops)) c st
      (fst (runOps c ops st)) (snd (runOps c ops st)).
Proof.
  induction ops as [|op rest IH]; intros c st Hc0 Hc.
  - simpl. apply grows_refl.
  - cbn [runOps length] in *. rewrite Nat2Z.inj_succ in *. unfold bind.
    pose proof (runOp_grows c op st ltac:(lia)) as Hg.
    destruct (runOp c op st) as [c1 st1]. simpl in Hg.
    replace (Z.succ (Z.of_nat (length rest))) with (1 + Z.of_nat (length rest)) by lia.
    eapply grows_trans; [exact Hg|].
    destruct Hg as [Hb _]. apply IH; lia.
Qed.

(** A session that comes from a new one by [ops]. *)
Lemma runOps_newSession (sid : string) (sshConn : Conn) (req : ConnectionRequest)
    (ops : list SessionOp) st :
  Z.of_nat (length ops) <= max_int64 ->
  let c := fst (runOps (newSession sid sshConn req) ops st) in
  0 <= tunnelIDAutoIncrement c <= Z.of_nat (length ops) /\
  ascending 0 (tunnelIDAutoIncrement c) (Tunnels c).
Proof.
  intros Hlen c.
  destruct (runOps_grows ops (newSession sid sshConn req) st)
    as (Hc & _ & Hasc & _); [simpl; lia | simpl; lia |].
  fold c in Hc, Hasc. simpl in Hc, Hasc. split; [lia | by apply Hasc].
Qed.

Lemma StartTunnel_new c r (acl : TunnelACL) st :
  FindTunnelByRemote c r = None ->
  0 <= tunnelIDAutoIncrement c < max_int64 ->
  let n := tunnelIDAutoIncrement c + 1 in
  let t := NewTunnel (FormatInt n) r acl in
  StartTunnel c r acl st =
    match tunnel_Start t (world st) with
    | (Some e, w) =>
        ((set_tunnelIDAutoIncrement c n, Err e),
         mkState w (repo st) (calls st ++ [CallStart t (Some e)]))
    | (None, w) =>
        ((set_Tunnels (set_tunnelIDAutoIncrement c n) (Tunnels c ++ [t]), Ok t),
         mkState w (repo st) (calls st ++ [CallStart t None]))
    end.
Proof.
  intros Hf Hc n t. unfold StartTunnel. rewrite Hf.
  rewrite generateNewTunnelID_next by done.
  unfold bind, Tunnel_Start, outside, ret. fold n. fold t.
  by destruct (tunnel_Start t (world st)) as [[e|] w].
Qed.

Lemma handed_out_lookup (l : list Tunnel) (m n : Z) (i : nat) t :
  tunnel_ID <$> l = FormatInt <$> seqZ m n ->
  l !! i = Some t ->
  tunnel_ID t = FormatInt (m + Z.of_nat i) /\ Z.of_nat i < n.
Proof.
  intros Heq Hl.
  assert ((tunnel_ID <$> l) !! i = Some (tunnel_ID t)) as Hi
    by (by rewrite list_lookup_fmap, Hl).
  rewrite Heq, list_lookup_fmap in Hi.
  destruct (seqZ m n !! i) as [k|] eqn:Hk; [|done].
  apply lookup_seqZ in Hk as [-> Hlt]. simpl in Hi. by injection Hi as ->.
Qed.

(** C5.  Take a session as [StartClientSession] builds it and let it serve
    any sequence of [StartTunnel] and [TerminateTunnel] calls, fewer than
    [2^63 - 1] of them, the range of the [int64] counter.  The tunnels
    constructed in those calls carry, in the order of their construction,
    the numerals of 1, 2, ... up to the counter; so the first ID is "1",
    and of two tunnels the one constructed earlier has the smaller number,
    which is at least 1.  The same holds along the tunnel list of the
    session, which keeps its tunnels in the order of their creation.  And
    the next [StartTunnel] goes on from there: for a remote that no tunnel
    of the list equals it advances the counter by one, constructs the
    tunnel with the numeral of the new counter value, larger than the
    number of every tunnel on the list, hands it to [Start], and, when
    [Start] gives no error, returns this tunnel and appends it to the
    list; whatever the remote, a tunnel that [StartTunnel] returns has as
    ID the numeral of a number from 1 up to the counter. *)
Theorem tunnel_IDs_strictly_increase (sid : string) (sshConn : Conn)
    (req : ConnectionRequest) (ops : list SessionOp) st :
  Z.of_nat (length ops) < max_int64 ->
  let out := runOps (newSession sid sshConn req) ops st in
  (exists made,
    calls (snd out) = calls st ++ made /\
    tunnel_ID <$> started made =
      FormatInt <$> seqZ 1 (tunnelIDAutoIncrement (fst out)) /\
    (forall t, head (started made) = Some t -> tunnel_ID t = "1") /\
    (forall i j t1 t2,
        (i < j)%nat ->
        started made !! i = Some t1 -> started made !! j = Some t2 ->
        exists n1 n2, Atoi (tunnel_ID t1) = Some n1 /\
                      Atoi (tunnel_ID t2) = Some n2 /\ 1 <= n1 /\ n1 < n2) /\
    (forall i j t1 t2,
        (i < j)%nat ->
        Tunnels (fst out) !! i = Some t1 -> Tunnels (fst out) !! j = Some t2 ->
        exists n1 n2, Atoi (tunnel_ID t1) = Some n1 /\
                      Atoi (tunnel_ID t2) = Some n2 /\ 1 <= n1 /\ n1 < n2)) /\
  (forall r (acl : TunnelACL),
      FindTunnelByRemote (fst out) r = None ->
      let n := tunnelIDAutoIncrement (fst out) + 1 in
      let t := NewTunnel (FormatInt n) r acl in
      let err := fst (tunnel_Start t (world (snd out))) in
      let next := StartTunnel (fst out) r acl (snd out) in
      tunnelIDAutoIncrement (fst (fst next)) = n /\
      calls (snd next) = calls (snd out) ++ [CallStart t err] /\
      Atoi (tunnel_ID t) = Some n /\ 1 <= n /\
      (forall u, u ∈ Tunnels (fst out) ->
                 exists m, Atoi (tunnel_ID u) = Some m /\ 1 <= m < n) /\
      match err with
      | None => snd (fst next) = Ok t /\
                Tunnels (fst (fst next)) = Tunnels (fst out) ++ [t]
      | Some e => snd (fst next) = Err e /\
                  Tunnels (fst (fst next)) = Tunnels (fst out)
      end) /\
  (forall r (acl : TunnelACL) t,
      let next := StartTunnel (fst out) r acl (snd out) in
      snd (fst next) = Ok t ->
      t ∈ Tunnels (fst (fst next)) /\
      exists m, Atoi (tunnel_ID t) = Some m /\
                1 <= m <= tunnelIDAutoIncrement (fst (fst next))).
Proof.
  intros Hlen out.
  destruct (runOps_grows ops (newSession sid sshConn req) st)
    as (Hc & (made & Hmade & Hids) & Hasc & _); [simpl; lia | simpl; lia |].
  fold out in Hc, Hmade, Hids, Hasc. simpl in Hc, Hids, Hasc.
  rewrite Z.sub_0_r in Hids. specialize (Hasc I).
  assert (forall u, u ∈ Tunnels (fst out) ->
            exists m, Atoi (tunnel_ID u) = Some m /\
                      1 <= m <= tunnelIDAutoIncrement (fst out)) as Hlisted.
  { intros u Hu. destruct (ascending_elem _ _ _ _ Hasc Hu) as (m & -> & Hm).
    exists m. rewrite Atoi_FormatInt. split; [done | lia]. }
  split; [|split].
  - exists made. split; [done|]. split; [done|]. split; [|split].
    + intros t Ht. rewrite head_lookup in Ht.
      by destruct (handed_out_lookup _ _ _ _ _ Hids Ht) as [-> _].
    + intros i j t1 t2 Hij H1 H2.
      destruct (handed_out_lookup _ _ _ _ _ Hids H1) as [E1 _].
      destruct (handed_out_lookup _ _ _ _ _ Hids H2) as [E2 _].
      exists (1 + Z.of_nat i), (1 + Z.of_nat j).
      rewrite E1, E2, !Atoi_FormatInt. repeat split; lia.
    + intros i j t1 t2 Hij H1 H2.
      destruct (ascending_lookup 0 _ _ i j t1 t2 Hasc Hij H1 H2)
        as (n1 & n2 & E1 & E2 & Hr).
      exists n1, n2. rewrite E1, E2, !Atoi_FormatInt. repeat split; lia.
  - intros r acl Hf n t err next. unfold next.
    rewrite StartTunnel_new by (done || lia). fold n. fold t. unfold err.
    destruct (tunnel_Start t (world (snd out))) as [[e|] w]; simpl.
    + split; [done|]. split; [done|]. split; [apply Atoi_FormatInt|].
      split; [lia|]. split; [|done].
      intros u Hu. destruct (Hlisted u Hu) as (m & Hm & Hr). exists m.
      split; [done | lia].
    + split; [done|]. split; [done|]. split; [apply Atoi_FormatInt|].
      split; [lia|]. split; [|done].
      intros u Hu. destruct (Hlisted u Hu) as (m & Hm & Hr). exists m.
      split; [done | lia].
  - intros r acl t next. unfold next, StartTunnel at 1 2 3.
    destruct (FindTunnelByRemote (fst out) r) as [t0|] eqn:Hf.
    + simpl. intros [= <-]. destruct (findByRemote_Some _ _ _ Hf) as [Hin _].
      split; [done|]. by apply Hlisted.
    + rewrite generateNewTunnelID_next by lia.
      unfold bind, Tunnel_Start, outside, ret.
      destruct (tunnel_Start _ (world (snd out))) as [[e|] w]; simpl; [done|].
      intros [= <-]. simpl. split.
      * apply elem_of_app. right. apply list_elem_of_here.
      * eexists. split; [apply Atoi_FormatInt | lia].
Qed.


End Allocation.

(** ** Starting the tunnels of a request *)

Section StartSessionTunnelsProperties.
Context {World : Type} `{Collaborators World}.
Implicit Types (c session : Client) (t : Tunnel) (r remote : Remote)
  (st : State World).

Lemma startTunnels_app (rs1 rs2 : list Remote) :
  forall session (tunnels : list Tunnel) st,
    startTunnels session (rs1 ++ rs2) tunnels st =
      match startTunnels session rs1 tunnels st with
      | ((s1, rs1', Err e), st1) => ((s1, rs1' ++ rs2, Err e), st1)
      | ((s1, rs1', Ok ts1), st1) =>
          let '((s2, rs2', res), st2) := startTunnels s1 rs2 ts1 st1 in
          ((s2, rs1' ++ rs2', res), st2)
      end.
Proof.
  induction rs1 as [|remote rest IH]; intros session tunnels st.
  - simpl. unfold ret.
    by destruct (startTunnels session rs2 tunnels st) as [[[s2 rs2'] res] st2].
  - simpl. unfold bind, ret.
    destruct (assignLocal remote st) as [[remote' [e|]] st1]; [done|].
    destruct (ParseTunnelACL (ACL remote')) as [acl|e]; [|done].
    destruct (StartTunnel session remote' acl st1) as [[s' [t|e]] st2]; [|done].
    rewrite IH.
    destruct (startTunnels s' rest (tunnels ++ [t]) st2)
      as [[[s3 rest'] [ts3|e]] st3]; [|done].
    by destruct (startTunnels s3 rs2 ts3 st3) as [[[s4 rs2'] res] st4].
Qed.

Lemma startTunnels_one_shape session remote (tunnels : list Tunnel) st :
  exists remote', snd (fst (fst (startTunnels session [remote] tunnels st))) = [remote'].
Proof.
  simpl. unfold bind, ret.
  destruct (assignLocal remote st) as [[remote' [e|]] st1]; [by eexists|].
  destruct (ParseTunnelACL (ACL remote')) as [acl|e]; [|by eexists].
  destruct (StartTunnel session remote' acl st1) as [[s' [t|e]] st2]; by eexists.
Qed.

Lemma startTunnels_error (remotes : list Remote) :
  forall session (tunnels : list Tunnel) st s' remotes' e st',
    startTunnels session remotes tunnels st = ((s', remotes', Err e), st') ->
    exists rs1 r rs2 s1 rs1' ts1 st1 r',
      remotes = rs1 ++ r :: rs2 /\
      startTunnels session rs1 tunnels st = ((s1, rs1', Ok ts1), st1) /\
      startTunnels s1 [r] ts1 st1 = ((s', [r'], Err e), st') /\
      remotes' = rs1' ++ r' :: rs2.
Proof.
  induction remotes as [|remote rest IH];
    intros session tunnels st s' remotes' e st' Hrun; [done|].
  change (remote :: rest) with ([remote] ++ rest) in Hrun.
  rewrite startTunnels_app in Hrun.
  destruct (startTunnels_one_shape session remote tunnels st) as [r0 Hshape].
  destruct (startTunnels session [remote] tunnels st)
    as [[[s1 rs1'] [ts1|e1]] st1] eqn:Hone; simpl in Hshape; subst rs1'.
  - destruct (startTunnels s1 rest ts1 st1) as [[[s2 rest'] res] st2] eqn:Hrest.
    injection Hrun as -> <- -> ->.
    destruct (IH _ _ _ _ _ _ _ Hrest)
      as (a & r & b & sa & a' & tsa & sta & r' & -> & Ha & Hr & ->).
    exists (remote :: a), r, b, sa, (r0 :: a'), tsa, sta, r'.
    split; [done|]. split; [|done].
    change (remote :: a) with ([remote] ++ a).
    by rewrite startTunnels_app, Hone, Ha.
  - injection Hrun as -> <- -> ->.
    exists [], remote, rest, session, [], tunnels, st, r0. done.
Qed.

Lemma startTunnels_ok (remotes : list Remote) :
  forall session (tunnels : list Tunnel) st s' remotes' ts st',
    startTunnels session remotes tunnels st = ((s', remotes', Ok ts), st') ->
    length remotes' = length remotes /\
    exists new, ts = tunnels ++ new /\ length new = length remotes.
Proof.
  induction remotes as [|remote rest IH];
    intros session tunnels st s' remotes' ts st' Hrun.
  - injection Hrun as <- <- <- <-. split; [done|]. exists []. by rewrite app_nil_r.
  - simpl in Hrun. unfold bind, ret in Hrun.
    destruct (assignLocal remote st) as [[remote' [e|]] st1]; [done|].
    destruct (ParseTunnelACL (ACL remote')) as [acl|e]; [|done].
    destruct (StartTunnel session remote' acl st1) as [[s1 [t|e]] st2]; [|done].
    destruct (startTunnels s1 rest (tunnels ++ [t]) st2)
      as [[[s3 rest'] res] st3] eqn:Hrest.
    injection Hrun as -> <- -> ->.
    destruct (IH _ _ _ _ _ _ _ Hrest) as (Hlen & new & -> & Hnew).
    split; [simpl; lia|]. exists (t :: new).
    split; [by rewrite <- app_assoc | simpl; lia].
Qed.

(** C7.  [StartSessionTunnels] begins with [Refresh]: if that fails the
    error is returned at once, with the session and the remotes as they
    were and no other call made; otherwise the loop runs from the state
    [Refresh] left, with no tunnel collected yet.  The loop takes the
    remotes in the order of the request: running it on [rs1 ++ rs2] is
    running it on [rs1] and, only if that gave no error, on [rs2] with the
    tunnels collected so far; an error on [rs1] is the result, the state
    is the one at the failure, and [rs2] comes back untouched.  For one
    remote: a remote without a local port gets the port that
    [GetRandomPort] returns, host "0.0.0.0" and the random mark, and a
    failure of [GetRandomPort] is the result; then the ACL is parsed, and a
    parse error is the result with [StartTunnel] not called; then
    [StartTunnel] is called with the remote and the ACL, and its error is
    the result; else its tunnel is appended to the collected ones.  So a
    run that ends in an error has processed a prefix of the remotes without
    error, failed on the next remote with that error, and left the
    remotes behind it as they were; a run that ends without error returns
    one tunnel for each remote. *)
Theorem StartSessionTunnels_in_order session st :
  (forall (remotes : list Remote) e w,
      pd_Refresh (world st) = (Some e, w) ->
      StartSessionTunnels session remotes st =
        ((session, remotes, Err e),
         mkState w (repo st) (calls st ++ [CallRefresh (Some e)]))) /\
  (forall (remotes : list Remote) w,
      pd_Refresh (world st) = (None, w) ->
      StartSessionTunnels session remotes st =
        startTunnels session remotes []
          (mkState w (repo st) (calls st ++ [CallRefresh None]))) /\
  (forall (rs1 rs2 : list Remote) (tunnels : list Tunnel),
      startTunnels session (rs1 ++ rs2) tunnels st =
        match startTunnels session rs1 tunnels st with
        | ((s1, rs1', Err e), st1) => ((s1, rs1' ++ rs2, Err e), st1)
        | ((s1, rs1', Ok ts1), st1) =>
            let '((s2, rs2', res), st2) := startTunnels s1 rs2 ts1 st1 in
            ((s2, rs1' ++ rs2', res), st2)
        end) /\
  (forall (tunnels : list Tunnel),
      startTunnels session [] tunnels st = ((session, [], Ok tunnels), st)) /\
  (forall remote,
      IsLocalSpecified remote = true ->
      assignLocal remote st = ((remote, None), st)) /\
  (forall remote e w,
      IsLocalSpecified remote = false ->
      pd_GetRandomPort (world st) = (Err e, w) ->
      assignLocal remote st =
        ((remote, Some e),
         mkState w (repo st) (calls st ++ [CallGetRandomPort (Err e)]))) /\
  (forall remote port w,
      IsLocalSpecified remote = false ->
      pd_GetRandomPort (world st) = (Ok port, w) ->
      exists remote',
        port_assigned remote remote' port /\
        assignLocal remote st =
          ((remote', None),
           mkState w (repo st) (calls st ++ [CallGetRandomPort (Ok port)]))) /\
  (forall remote remote' (tunnels : list Tunnel) e st1,
      assignLocal remote st = ((remote', Some e), st1) ->
      startTunnels session [remote] tunnels st =
        ((session, [remote'], Err e), st1)) /\
  (forall remote remote' (tunnels : list Tunnel) e st1,
      assignLocal remote st = ((remote', None), st1) ->
      ParseTunnelACL (ACL remote') = Err e ->
      startTunnels session [remote] tunnels st =
        ((session, [remote'], Err e), st1)) /\
  (forall remote remote' (tunnels : list Tunnel) acl e st1 s2 st2,
      assignLocal remote st = ((remote', None), st1) ->
      ParseTunnelACL (ACL remote') = Ok acl ->
      StartTunnel session remote' acl st1 = ((s2, Err e), st2) ->
      startTunnels session [remote] tunnels st = ((s2, [remote'], Err e), st2)) /\
  (forall remote remote' (tunnels : list Tunnel) acl t st1 s2 st2,
      assignLocal remote st = ((remote', None), st1) ->
      ParseTunnelACL (ACL remote') = Ok acl ->
      StartTunnel session remote' acl st1 = ((s2, Ok t), st2) ->
      startTunnels session [remote] tunnels st =
        ((s2, [remote'], Ok (tunnels ++ [t])), st2)) /\
  (forall (remotes : list Remote) (tunnels : list Tunnel) s' remotes' e st',
      startTunnels session remotes tunnels st = ((s', remotes', Err e), st') ->
      exists rs1 r rs2 s1 rs1' ts1 st1 r',
        remotes = rs1 ++ r :: rs2 /\
        startTunnels session rs1 tunnels st = ((s1, rs1', Ok ts1), st1) /\
        startTunnels s1 [r] ts1 st1 = ((s', [r'], Err e), st') /\
        remotes' = rs1' ++ r' :: rs2) /\
  (forall (remotes : list Remote) (tunnels : list Tunnel) s' remotes' ts st',
      startTunnels session remotes tunnels st = ((s', remotes', Ok ts), st') ->
      length remotes' = length remotes /\
      exists new, ts = tunnels ++ new /\ length new = length remotes).
Proof.
  repeat match goal with |- _ /\ _ => split end;
    [..| intros remotes tunnels s' remotes' e st'; apply startTunnels_error
       | intros remotes tunnels s' remotes' ts st'; apply startTunnels_ok ].
  - intros remotes e w Hr.
    unfold StartSessionTunnels, bind, PortDistributor_Refresh, outside, ret.
    by rewrite Hr.
  - intros remotes w Hr.
    unfold StartSessionTunnels, bind, PortDistributor_Refresh, outside, ret.
    by rewrite Hr.
  - intros rs1 rs2 tunnels. apply startTunnels_app.
  - done.
  - intros remote Hl. unfold assignLocal. by rewrite Hl.
  - intros remote e w Hl Hp. unfold assignLocal. rewrite Hl. simpl.
    unfold bind, PortDistributor_GetRandomPort, outside, ret. by rewrite Hp.
  - intros remote port w Hl Hp. eexists. split; [|].
    2:{ unfold assignLocal. rewrite Hl. simpl.
        unfold bind, PortDistributor_GetRandomPort, outside, ret.
        rewrite Hp. reflexivity. }
    by repeat split.
  - intros remote remote' tunnels e st1 Ha. simpl. unfold bind, ret.
    by rewrite Ha.
  - intros remote remote' tunnels e st1 Ha Hp. simpl. unfold bind, ret.
    by rewrite Ha, Hp.
  - intros remote remote' tunnels acl e st1 s2 st2 Ha Hp Hs. simpl.
    unfold bind, ret. by rewrite Ha, Hp, Hs.
  - intros remote remote' tunnels acl t st1 s2 st2 Ha Hp Hs. simpl.
    unfold bind, ret. by rewrite Ha, Hp, Hs.
Qed.

End StartSessionTunnelsProperties.

(** ** The code run on the stand-in host *)

(** C3 at the boundary.  The session was disconnected at instant 400, the
    clock shows 1000 and the retention is 600: exactly the retention has
    passed.  [Obsolete] returns false, so the sentence with "at least"
    does not hold. *)
Lemma Obsolete_boundary_not_obsolete :
  let c := set_DisconnectedAt (newSession "s1" Stub.conn (Stub.request []))
             (Some 400) in
  let st := Stub.init [] [] (Some 600) in
  fst (Obsolete c (Some 600) st) = false /\
  ~ Obsolete_from_boundary c (Some 600) st.
Proof.
  intros c st. split; [reflexivity|].
  intros [_ Hback].
  assert (fst (Obsolete c (Some 600) st) = true) as Hobs.
  { apply Hback. exists 600, 400. repeat split. vm_compute. discriminate. }
  vm_compute in Hobs. discriminate.
Qed.

(** C2 when [Terminate] fails.  The session holds tunnel "1" on local port
    3000, and no listener is bound on that port, so closing it fails.
    [TerminateTunnel] returns the error and the tunnel is still on the
    list. *)
Lemma TerminateTunnel_error_keeps_tunnel :
  let t := NewTunnel "1" (Stub.remote "3000" "10.0.0.5" "22") [] in
  let c := set_Tunnels (newSession "s1" Stub.conn (Stub.request [])) [t] in
  let st := Stub.init [] [] None in
  Tunnels (fst (fst (TerminateTunnel c t st))) = [t] /\
  ~ TerminateTunnel_removes_regardless c t st.
Proof.
  intros t c st. split; [reflexivity|].
  unfold TerminateTunnel_removes_regardless. vm_compute.
  intros (_ & _ & Habs). discriminate.
Qed.

(** C1 when the second of two tunnels cannot bind.  The request asks for
    local ports 3000 and 3001 and port 3001 is taken.  Tunnel "1" is
    started, tunnel "2" fails to bind, and [StartClientSession] returns the
    bind error with the listener of tunnel "1" still bound and no
    [Terminate] call made. *)
Lemma StartClientSession_leaves_tunnel_started :
  let r1 := Stub.remote "3000" "10.0.0.5" "22" in
  let r2 := Stub.remote "3001" "10.0.0.5" "80" in
  let st := Stub.init ["3001"] [] None in
  let out := StartClientSession "s1" Stub.conn (Stub.request [r1; r2]) st in
  fst out = Err (BindError "0.0.0.0:3001") /\
  Stub.listeners (world (snd out)) = ["3000"; "3001"] /\
  terminated (calls (snd out)) = [] /\
  ~ StartClientSession_unwinds "s1" Stub.conn (Stub.request [r1; r2]) st.
Proof.
  intros r1 r2 st out. repeat split; try reflexivity.
  intros Hclaim.
  specialize (Hclaim (BindError "0.0.0.0:3001") eq_refl).
  vm_compute in Hclaim. destruct Hclaim as (_ & _ & Hterm).
  specialize (Hterm (NewTunnel "1" r1 [])).
  apply elem_of_nil in Hterm; [done|].
  apply list_elem_of_further, list_elem_of_here.
Qed.

Lemma StartClientSession_error_witness :
  let r1 := Stub.remote "3000" "10.0.0.5" "22" in
  let r2 := Stub.remote "3001" "10.0.0.5" "80" in
  let req := Stub.request [r1; r2] in
  let st := Stub.init ["3001"] [] None in
  snd (fst (StartSessionTunnels (newSession "s1" Stub.conn req) (req_Remotes req) st))
    = Err (BindError "0.0.0.0:3001") /\
  (StartClientSession "s1" Stub.conn req st =
     (Err (BindError "0.0.0.0:3001"),
      snd (StartSessionTunnels (newSession "s1" Stub.conn req) (req_Remotes req) st)) /\
   repo (snd (StartClientSession "s1" Stub.conn req st)) = repo st /\
   terminated (calls (snd (StartClientSession "s1" Stub.conn req st)))
     = terminated (calls st)).
Proof.
  intros r1 r2 req st. split; [reflexivity|].
  apply (StartClientSession_error "s1" Stub.conn req st). reflexivity.
Defined.

Lemma StartTunnel_existing_witness :
  let r1 := Stub.remote "3000" "10.0.0.5" "22" in
  let t1 := NewTunnel "1" r1 [] in
  let c := set_tunnelIDAutoIncrement
             (set_Tunnels (newSession "s1" Stub.conn (Stub.request [r1])) [t1]) 1 in
  let st := Stub.init ["3000"] [] None in
  (exists t, t ∈ Tunnels c /\ tunnel_Equals t r1 = true) /\
  (exists t, t ∈ Tunnels c /\ tunnel_Equals t r1 = true /\
             FindTunnelByRemote c r1 = Some t /\
             StartTunnel c r1 [] st = ((c, Ok t), st)) /\
  (forall t, t ∈ Tunnels c -> tunnel_Equals t r1 = true ->
             (forall u, u ∈ Tunnels c -> tunnel_Equals u r1 = true -> u = t) ->
             StartTunnel c r1 [] st = ((c, Ok t), st)).
Proof.
  intros r1 t1 c st.
  assert (exists t, t ∈ Tunnels c /\ tunnel_Equals t r1 = true) as Hex.
  { exists t1. split; [apply list_elem_of_here | reflexivity]. }
  split; [exact Hex|].
  apply (StartTunnel_existing c r1 [] st Hex).
Defined.

(** On a list that holds two different tunnels with the same ID, removing
    one of them removes the other as well. *)
Example removeTunnel_same_ID_other_object :
  let r1 := Stub.remote "3000" "10.0.0.5" "22" in
  let r2 := Stub.remote "3001" "10.0.0.5" "80" in
  let t1 := NewTunnel "1" r1 [] in
  let t1' := NewTunnel "1" r2 [] in
  let t2 := NewTunnel "2" r2 [] in
  let c := set_Tunnels (newSession "s1" Stub.conn (Stub.request [])) [t1; t2; t1'] in
  t1 <> t1' /\ Tunnels (removeTunnel c t1) = [t2].
Proof. split; [discriminate | reflexivity]. Qed.

(** ** Tunnel IDs on the stand-in host *)

(** Four calls on a new session: a tunnel on port 3000, one on port 3001
    that cannot bind, one on port 3002, and the termination of the first.
    The IDs handed out are "1", "2" and "3"; the list ends with tunnel "3"
    alone, and the next tunnel, on port 3003, is tunnel "4". *)
Lemma tunnel_IDs_strictly_increase_witness :
  let r1 := Stub.remote "3000" "10.0.0.5" "22" in
  let r2 := Stub.remote "3001" "10.0.0.5" "80" in
  let r3 := Stub.remote "3002" "10.0.0.5" "443" in
  let r4 := Stub.remote "3003" "10.0.0.5" "8080" in
  let ops := [OpStartTunnel r1 []; OpStartTunnel r2 []; OpStartTunnel r3 [];
              OpTerminateTunnel (NewTunnel "1" r1 [])] in
  let st := Stub.init ["3001"] [] None in
  let out := runOps (newSession "s1" Stub.conn (Stub.request [])) ops st in
  (tunnel_ID <$> started (calls (snd out)) = ["1"; "2"; "3"] /\
   tunnel_ID <$> Tunnels (fst out) = ["3"] /\
   snd (fst (StartTunnel (fst out) r4 [] (snd out))) = Ok (NewTunnel "4" r4 []) /\
   snd (fst (StartTunnel (newSession "s1" Stub.conn (Stub.request [])) r1 [] st))
     = Ok (NewTunnel "1" r1 [])) /\
  Z.of_nat (length ops) < max_int64 /\
  (exists made,
    calls (snd out) = calls st ++ made /\
    tunnel_ID <$> started made =
      FormatInt <$> seqZ 1 (tunnelIDAutoIncrement (fst out)) /\
    (forall t, head (started made) = Some t -> tunnel_ID t = "1") /\
    (forall i j t1 t2,
        (i < j)%nat ->
        started made !! i = Some t1 -> started made !! j = Some t2 ->
        exists n1 n2, Atoi (tunnel_ID t1) = Some n1 /\
                      Atoi (tunnel_ID t2) = Some n2 /\ 1 <= n1 /\ n1 < n2) /\
    (forall i j t1 t2,
        (i < j)%nat ->
        Tunnels (fst out) !! i = Some t1 -> Tunnels (fst out) !! j = Some t2 ->
        exists n1 n2, Atoi (tunnel_ID t1) = Some n1 /\
                      Atoi (tunnel_ID t2) = Some n2 /\ 1 <= n1 /\ n1 < n2)) /\
  (forall r (acl : TunnelACL),
      FindTunnelByRemote (fst out) r = None ->
      let n := tunnelIDAutoIncrement (fst out) + 1 in
      let t := NewTunnel (FormatInt n) r acl in
      let err := fst (tunnel_Start t (world (snd out))) in
      let next := StartTunnel (fst out) r acl (snd out) in
      tunnelIDAutoIncrement (fst (fst next)) = n /\
      calls (snd next) = calls (snd out) ++ [CallStart t err] /\
      Atoi (tunnel_ID t) = Some n /\ 1 <= n /\
      (forall u, u ∈ Tunnels (fst out) ->
                 exists m, Atoi (tunnel_ID u) = Some m /\ 1 <= m < n) /\
      match err with
      | None => snd (fst next) = Ok t /\
                Tunnels (fst (fst next)) = Tunnels (fst out) ++ [t]
      | Some e => snd (fst next) = Err e /\
                  Tunnels (fst (fst next)) = Tunnels (fst out)
      end) /\
  (forall r (acl : TunnelACL) t,
      let next := StartTunnel (fst out) r acl (snd out) in
      snd (fst next) = Ok t ->
      t ∈ Tunnels (fst (fst next)) /\
      exists m, Atoi (tunnel_ID t) = Some m /\
                1 <= m <= tunnelIDAutoIncrement (fst (fst next))).
Proof.
  intros r1 r2 r3 r4 ops st out.
  split; [repeat split; reflexivity|].
  assert (Z.of_nat (length ops) < max_int64) as Hlen by (vm_compute; reflexivity).
  split; [exact Hlen|].
  apply (tunnel_IDs_strictly_increase "s1" Stub.conn (Stub.request []) ops st Hlen).
Defined.

Example tunnel_IDs_run :
  let r1 := Stub.remote "3000" "10.0.0.5" "22" in
  let r2 := Stub.remote "3001" "10.0.0.5" "80" in
  let r3 := Stub.remote "3002" "10.0.0.5" "443" in
  let ops := [OpStartTunnel r1 []; OpStartTunnel r2 []; OpStartTunnel r3 [];
              OpTerminateTunnel (NewTunnel "1" r1 [])] in
  let out := runOps (newSession "s1" Stub.conn (Stub.request [])) ops
               (Stub.init ["3001"] [] None) in
  tunnel_ID <$> started (calls (snd out)) = ["1"; "2"; "3"] /\
  tunnel_ID <$> Tunnels (fst out) = ["3"] /\
  tunnelIDAutoIncrement (fst out) = 3.
Proof. repeat split; reflexivity. Qed.



Example StartTunnel_failure_run :
  let r1 := Stub.remote "3000" "10.0.0.5" "22" in
  let r := Stub.remote "3001" "10.0.0.5" "80" in
  let r2 := Stub.remote "3002" "10.0.0.5" "443" in
  let c := newSession "s1" Stub.conn (Stub.request []) in
  let st := Stub.init ["3001"] [] None in
  let out1 := StartTunnel c r1 [] st in
  let out2 := StartTunnel (fst (fst out1)) r [] (snd out1) in
  let out3 := StartTunnel (fst (fst out2)) r1 [] (snd out2) in
  let out4 := StartTunnel (fst (fst out3)) r2 [] (snd out3) in
  snd (fst out1) = Ok (NewTunnel "1" r1 []) /\
  snd (fst out2) = Err (BindError "0.0.0.0:3001") /\
  snd (fst out3) = Ok (NewTunnel "1" r1 []) /\
  snd (fst out4) = Ok (NewTunnel "3" r2 []) /\
  Tunnels (fst (fst out4)) = [NewTunnel "1" r1 []; NewTunnel "3" r2 []].
Proof. repeat split; reflexivity. Qed.

(** ** A request on the stand-in host *)

(** Three remotes, the second without a local port: it gets port 20001
    from the distributor, port 20000 being taken.  The third has an ACL
    that does not parse: the error is returned, two tunnels are started
    and the session is not saved. *)
Example StartSessionTunnels_run :
  let r1 := Stub.remote "3000" "10.0.0.5" "22" in
  let r2 := Stub.remote "" "10.0.0.5" "80" in
  let r3 := mkRemote "" "0.0.0.0" "3002" "10.0.0.5" "443" false (Some "10.0.0.0/33") in
  let st := Stub.init ["20000"] [20000; 20001] None in
  let out := StartSessionTunnels (newSession "s1" Stub.conn (Stub.request []))
               [r1; r2; r3] st in
  snd (fst out) = Err (ACLParseError "10.0.0.0/33") /\
  snd (fst (fst out)) =
    [r1; mkRemote "" "0.0.0.0" "20001" "10.0.0.5" "80" true None; r3] /\
  tunnel_ID <$> started (calls (snd out)) = ["1"; "2"] /\
  tunnel_ID <$> Tunnels (fst (fst (fst out))) = ["1"; "2"] /\
  Stub.pool (world (snd out)) = [20000].
Proof. repeat split; reflexivity. Qed.

(** With a retention of one hour, a terminated session stays in the
    repository as disconnected; without one it is deleted. *)
Example SessionService_Terminate_run :
  let s := newSession "s1" Stub.conn (Stub.request []) in
  let hour := 3600000000000 in
  let saved := snd (Save s (Stub.init [] [] (Some hour))) in
  let out := SessionService_Terminate s saved in
  let gone := SessionService_Terminate s (snd (Save s (Stub.init [] [] None))) in
  repo_GetByID (repo (snd out)) "s1" = Some (set_DisconnectedAt s (Some 1000)) /\
  repo_GetActiveByID (repo (snd out)) "s1" = None /\
  repo_GetActiveByID (repo saved) "s1" = Some s /\
  repo_GetByID (repo (snd gone)) "s1" = None.
Proof. repeat split; vm_compute; reflexivity. Qed.

(** A group that names a tag has the clients that carry a matching tag;
    a group that names nothing has no client. *)
Example BelongsTo_run :
  let c := mkClient "c1" "web-1" "linux" "amd64" "debian" "5.10" "web-1"
             ["10.0.0.5"] [] ["prod"; "web"] "0.1.0" "192.0.2.7:40022" [] None ""
             Stub.conn 0 in
  let none := mkClientParams [] [] [] [] [] [] [] [] [] [] [] [] [] in
  let tagged := mkClientParams [] [] [] [] [] [] [] [] [] ["db"; "web"] [] [] [] in
  let other := mkClientParams [] [] ["windows"] [] [] [] [] [] [] ["web"] [] [] [] in
  BelongsTo String.eqb c (mkClientGroup "g0" none) = false /\
  BelongsTo String.eqb c (mkClientGroup "g1" tagged) = true /\
  BelongsTo String.eqb c (mkClientGroup "g2" other) = false.
Proof. repeat split; reflexivity. Qed.

(** * Further properties *)

(** ** Finding and removing tunnels *)

Lemma findByID_Some (ts : list Tunnel) (id : string) (t : Tunnel) :
  findByID ts id = Some t <->
  exists l1 l2, ts = l1 ++ t :: l2 /\ tunnel_ID t = id /\
                forall u, u ∈ l1 -> tunnel_ID u <> id.
Proof.
  split.
  - induction ts as [|curr rest IH]; simpl; [done|].
    case_bool_decide as Hid.
    + intros [= <-]. exists [], rest. split; [done|]. split; [done|].
      intros u Hu. by apply elem_of_nil in Hu.
    + intros Hf. destruct (IH Hf) as (l1 & l2 & -> & Ht & Hl1).
      exists (curr :: l1), l2. split; [done|]. split; [done|].
      intros u Hu. apply elem_of_cons in Hu as [->|Hu]; auto.
  - intros (l1 & l2 & -> & Ht & Hl1).
    induction l1 as [|u l1 IH]; simpl.
    + by rewrite bool_decide_true.
    + rewrite bool_decide_false by (apply Hl1, list_elem_of_here).
      apply IH. intros v Hv. by apply Hl1, list_elem_of_further.
Qed.

Lemma findByID_None (ts : list Tunnel) (id : string) :
  findByID ts id = None <-> forall t, t ∈ ts -> tunnel_ID t <> id.
Proof.
  induction ts as [|curr rest IH]; simpl.
  - split; [|done]. intros _ t Ht. by apply elem_of_nil in Ht.
  - case_bool_decide as Hid.
    + split; [done|]. intros Hall. by destruct (Hall curr (list_elem_of_here _ _)).
    + rewrite IH. split.
      * intros Hall t Ht. apply elem_of_cons in Ht as [->|Ht]; auto.
      * intros Hall t Ht. by apply Hall, list_elem_of_further.
Qed.

Lemma findByID_filter (ts : list Tunnel) (gone id : string) :
  findByID (filter (fun u => tunnel_ID u <> gone) ts) id =
    if bool_decide (id = gone) then None else findByID ts id.
Proof.
  induction ts as [|curr rest IH]; simpl.
  - by case_bool_decide.
  - rewrite filter_cons. destruct (decide (tunnel_ID curr <> gone)) as [Hk|Hk].
    + simpl. rewrite IH. repeat case_bool_decide; congruence.
    + rewrite IH. apply dec_stable in Hk.
      repeat case_bool_decide; congruence.
Qed.

Lemma removeTunnel_eq (c : Client) (t : Tunnel) :
  removeTunnel c t =
    set_Tunnels c (filter (fun u => tunnel_ID u <> tunnel_ID t) (Tunnels c)).
Proof. unfold removeTunnel. by rewrite fold_left_keep. Qed.

Lemma filter_all {A : Type} (P : A -> Prop) `{!forall x, Decision (P x)}
    (l : list A) :
  (forall x, x ∈ l -> P x) -> filter P l = l.
Proof.
  induction l as [|x l IH]; intros Hall; [done|].
  rewrite filter_cons_True by (apply Hall, list_elem_of_here).
  f_equal. apply IH. intros y Hy. by apply Hall, list_elem_of_further.
Qed.

(** X1.  [FindTunnel] returns the first tunnel of the list that has the
    ID: the tunnels in front of the one returned have other IDs.  It
    returns nil exactly when no tunnel of the list has the ID. *)
Theorem FindTunnel_first (c : Client) (id : string) :
  (forall t,
      FindTunnel c id = Some t <->
      exists l1 l2, Tunnels c = l1 ++ t :: l2 /\ tunnel_ID t = id /\
                    forall u, u ∈ l1 -> tunnel_ID u <> id) /\
  (FindTunnel c id = None <-> forall t, t ∈ Tunnels c -> tunnel_ID t <> id).
Proof.
  unfold FindTunnel. split.
  - intros t. apply findByID_Some.
  - apply findByID_None.
Qed.

(** X2.  After [removeTunnel(t)] a search for the ID of [t] finds nothing,
    and a search for any other ID finds what it found before. *)
Theorem FindTunnel_removeTunnel (c : Client) (t : Tunnel) (id : string) :
  FindTunnel (removeTunnel c t) (tunnel_ID t) = None /\
  (id <> tunnel_ID t -> FindTunnel (removeTunnel c t) id = FindTunnel c id).
Proof.
  unfold FindTunnel. rewrite removeTunnel_eq. simpl. rewrite !findByID_filter.
  split.
  - by rewrite bool_decide_true.
  - intros Hid. by rewrite bool_decide_false.
Qed.

(** X3.  [removeTunnel] on a list where no tunnel has the ID of [t] changes
    nothing; removing twice is removing once; two removals give the same
    session in either order; the list never gets longer, and it gets
    shorter when [t] is on it. *)
Theorem removeTunnel_algebra (c : Client) (t u : Tunnel) :
  ((forall v, v ∈ Tunnels c -> tunnel_ID v <> tunnel_ID t) -> removeTunnel c t = c) /\
  removeTunnel (removeTunnel c t) t = removeTunnel c t /\
  removeTunnel (removeTunnel c t) u = removeTunnel (removeTunnel c u) t /\
  (length (Tunnels (removeTunnel c t)) <= length (Tunnels c))%nat /\
  (t ∈ Tunnels c -> (length (Tunnels (removeTunnel c t)) < length (Tunnels c))%nat).
Proof.
  rewrite !removeTunnel_eq. simpl. repeat split.
  - intros Hnone. rewrite filter_all by done. by destruct c.
  - unfold set_Tunnels. simpl. f_equal.
    apply filter_all. intros v Hv. by apply list_elem_of_filter in Hv as [? _].
  - unfold set_Tunnels. simpl. f_equal.
    rewrite !list_filter_filter. apply list_filter_iff. tauto.
  - apply length_filter.
  - intros Ht. apply (length_filter_lt _ _ t); [done|]. intros Hne. by apply Hne.
Qed.

Lemma ascending_findByID (lo hi : Z) (ts : list Tunnel) (t : Tunnel) :
  ascending lo hi ts -> t ∈ ts -> findByID ts (tunnel_ID t) = Some t.
Proof.
  revert lo. induction ts as [|u rest IH]; intros lo Hasc Hin.
  - by apply elem_of_nil in Hin.
  - simpl in Hasc. destruct Hasc as (n & Hu & Hn & Hrest). simpl.
    apply elem_of_cons in Hin as [->|Hin]; [by rewrite bool_decide_true|].
    destruct (ascending_elem _ _ _ _ Hrest Hin) as (m & Hm & Hrange).
    rewrite bool_decide_false; [by apply (IH n)|].
    rewrite Hu, Hm. intros Heq. apply FormatInt_inj in Heq. lia.
Qed.

Lemma ascending_NoDup (lo hi : Z) (ts : list Tunnel) :
  ascending lo hi ts -> NoDup (tunnel_ID <$> ts).
Proof.
  revert lo. induction ts as [|u rest IH]; intros lo Hasc; simpl.
  - apply NoDup_nil_2.
  - simpl in Hasc. destruct Hasc as (n & Hu & Hn & Hrest).
    apply NoDup_cons_2; [|by apply (IH n)].
    intros Hin. apply list_elem_of_fmap in Hin as (t & Ht & Hin).
    destruct (ascending_elem _ _ _ _ Hrest Hin) as (m & Hm & Hrange).
    rewrite Hu, Hm in Ht. apply FormatInt_inj in Ht. lia.
Qed.

Section TunnelLists.
Context {World : Type} `{Collaborators World}.
Implicit Types (c : Client) (t : Tunnel) (r : Remote) (st : State World).

Lemma findByRemote_app (l1 l2 : list Tunnel) r :
  findByRemote (l1 ++ l2) r =
    match findByRemote l1 r with
    | Some t => Some t
    | None => findByRemote l2 r
    end.
Proof.
  induction l1 as [|u l1 IH]; simpl; [done|].
  by destruct (tunnel_Equals u r).
Qed.

(** X4.  In a session that comes from a new one by [StartTunnel] and
    [TerminateTunnel] calls, within the range of the counter, no two
    tunnels of the list have the same ID, and [FindTunnel] with the ID of a
    tunnel of the list returns that tunnel. *)
Theorem FindTunnel_finds_listed (sid : string) (sshConn : Conn)
    (req : ConnectionRequest) (ops : list SessionOp) st :
  Z.of_nat (length ops) <= max_int64 ->
  let c := fst (runOps (newSession sid sshConn req) ops st) in
  NoDup (tunnel_ID <$> Tunnels c) /\
  forall t, t ∈ Tunnels c -> FindTunnel c (tunnel_ID t) = Some t.
Proof.
  intros Hlen c.
  destruct (runOps_newSession sid sshConn req ops st Hlen) as [_ Hasc].
  fold c in Hasc. split.
  - by apply (ascending_NoDup 0 (tunnelIDAutoIncrement c)).
  - intros t Ht. by apply (ascending_findByID 0 (tunnelIDAutoIncrement c)).
Qed.

Lemma StartTunnel_cases c r (acl : TunnelACL) st :
  (exists t, FindTunnelByRemote c r = Some t /\
             StartTunnel c r acl st = ((c, Ok t), st)) \/
  (FindTunnelByRemote c r = None /\
   exists n w,
     let t := NewTunnel (FormatInt n) r acl in
     let c1 := set_tunnelIDAutoIncrement c n in
     (exists e, StartTunnel c r acl st =
                  ((c1, Err e), mkState w (repo st) (calls st ++ [CallStart t (Some e)]))) \/
     StartTunnel c r acl st =
       ((set_Tunnels c1 (Tunnels c ++ [t]), Ok t),
        mkState w (repo st) (calls st ++ [CallStart t None]))).
Proof.
  unfold StartTunnel. destruct (FindTunnelByRemote c r) as [t|] eqn:Hf.
  - left. by exists t.
  - right. split; [done|]. unfold generateNewTunnelID, bind, Tunnel_Start, outside, ret.
    exists (wrap64 (tunnelIDAutoIncrement c + 1)).
    destruct (tunnel_Start _ (world st)) as [[e|] w]; exists w; simpl.
    + left. by exists e.
    + by right.
Qed.

(** X5.  [StartTunnel] never takes a tunnel off the list.  When it returns
    a tunnel, that tunnel is on the list afterwards: either it was there
    and nothing changed, or it was made for this remote and this ACL,
    its [Start] was the one call made and returned no error, and it was
    appended at the end.  When it returns an error the list is the same. *)
Theorem StartTunnel_list c r (acl : TunnelACL) st :
  let '(c', res, st') := StartTunnel c r acl st in
  Tunnels c `prefix_of` Tunnels c' /\
  same_identity c c' /\ DisconnectedAt c' = DisconnectedAt c /\
  match res with
  | Ok t =>
      t ∈ Tunnels c' /\
      ((t ∈ Tunnels c /\ c' = c /\ st' = st) \/
       (Tunnels c' = Tunnels c ++ [t] /\
        tunnel_Remote t = r /\ tunnel_ACL t = acl /\
        calls st' = calls st ++ [CallStart t None]))
  | Err e =>
      Tunnels c' = Tunnels c /\
      exists t, calls st' = calls st ++ [CallStart t (Some e)]
  end.
Proof.
  destruct (StartTunnel_cases c r acl st)
    as [(t & Hf & ->)|(Hf & n & w & [[e ->]| ->])]; simpl.
  - destruct (findByRemote_Some _ _ _ Hf) as [Hin _].
    repeat split; try done. by left.
  - repeat split; try done. by eexists.
  - split; [by apply prefix_app_r|]. repeat split; try done.
    + apply elem_of_app. right. apply list_elem_of_here.
    + by right.
Qed.

(** X6.  If a tunnel made for a remote equals that remote, then asking
    twice is asking once: after a [StartTunnel] that returned a tunnel, a
    second [StartTunnel] for the same remote, with whatever ACL, returns
    the same tunnel and changes neither the session nor anything
    outside. *)
Theorem StartTunnel_twice c r (acl acl' : TunnelACL) st :
  (forall id, tunnel_Equals (NewTunnel id r acl) r = true) ->
  let '(c1, res, st1) := StartTunnel c r acl st in
  forall t, res = Ok t -> StartTunnel c1 r acl' st1 = ((c1, Ok t), st1).
Proof.
  intros Hrefl.
  destruct (StartTunnel_cases c r acl st)
    as [(t & Hf & ->)|(Hf & n & w & [[e ->]| ->])]; simpl.
  - intros t' [= <-]. unfold StartTunnel. by rewrite Hf.
  - done.
  - intros t' [= <-]. unfold StartTunnel, FindTunnelByRemote in *. simpl.
    rewrite findByRemote_app, Hf. simpl. by rewrite Hrefl.
Qed.

(** X7.  In a session that comes from a new one, within the range of the
    counter: once [TerminateTunnel] has taken a tunnel of the list away,
    its ID does not come back.  After any further calls no tunnel of the
    list has that ID and [FindTunnel] with it returns nil. *)
Theorem terminated_ID_not_reused (sid : string) (sshConn : Conn)
    (req : ConnectionRequest) (before after : list SessionOp) t st :
  Z.of_nat (length before) + Z.of_nat (length after) <= max_int64 ->
  let s0 := runOps (newSession sid sshConn req) before st in
  t ∈ Tunnels (fst s0) ->
  fst (tunnel_Terminate t (world (snd s0))) = None ->
  let out := TerminateTunnel (fst s0) t (snd s0) in
  let later := runOps (fst (fst out)) after (snd out) in
  snd (fst out) = None /\
  (forall u, u ∈ Tunnels (fst later) -> tunnel_ID u <> tunnel_ID t) /\
  FindTunnel (fst later) (tunnel_ID t) = None.
Proof.
  intros Hlen s0 Hin Hterm out later.
  destruct (runOps_newSession sid sshConn req before st ltac:(lia)) as [Hc Hasc].
  fold s0 in Hc, Hasc.
  destruct (ascending_elem _ _ _ _ Hasc Hin) as (n & Hn & Hrange).
  assert (out = ((removeTunnel (fst s0) t, None),
                 mkState (snd (tunnel_Terminate t (world (snd s0)))) (repo (snd s0))
                   (calls (snd s0) ++ [CallTerminate t None]))) as Hout.
  { unfold out, TerminateTunnel, bind, Tunnel_Terminate, outside, ret.
    destruct (tunnel_Terminate t (world (snd s0))) as [[e|] w]; simpl in *;
      congruence. }
  assert (forall u, u ∈ Tunnels (fst later) -> tunnel_ID u <> tunnel_ID t) as Hgone.
  { unfold later. rewrite Hout. simpl.
    match goal with |- context [runOps ?c1 after ?st1] =>
      destruct (runOps_grows after c1 st1) as (_ & _ & _ & Hfree);
        [simpl; lia | simpl; lia |]
    end.
    rewrite Hn. apply Hfree; [simpl; lia|].
    intros u Hu. rewrite removeTunnel_filter in Hu.
    apply list_elem_of_filter in Hu as [Hu _]. by rewrite <- Hn. }
  split; [by rewrite Hout|]. split; [exact Hgone|].
  unfold FindTunnel. by apply findByID_None.
Qed.

End TunnelLists.

(** ** Obsolete sessions *)

Section ObsoleteProperties.
Context {World : Type} `{Collaborators World}.
Implicit Types (c : Client) (st : State World).

Lemma Obsolete_run c (duration : option Duration) st :
  Obsolete c duration st =
    match duration, DisconnectedAt c with
    | Some d, Some at_ =>
        (Time_Before (Time_Add at_ d) (fst (time_Now (world st))),
         mkState (snd (time_Now (world st))) (repo st)
           (calls st ++ [CallNow (fst (time_Now (world st)))]))
    | _, _ => (false, st)
    end.
Proof.
  unfold Obsolete. destruct duration as [d|]; [|done].
  destruct (DisconnectedAt c) as [at_|]; [|done].
  unfold bind, now, outside, ret. by destruct (time_Now (world st)).
Qed.

(** X8.  A connected client is never obsolete, and with no duration no
    client is: [Obsolete] then returns false without reading the clock.
    Otherwise the answer grows with the clock and shrinks with the
    duration: a client that is obsolete for a duration when the clock
    shows [n] is obsolete for every duration that is not longer whenever
    the clock shows [n] or more. *)
Theorem Obsolete_monotone c (d d' : Duration) st st' :
  (forall duration, ConnectionState_of c = Connected ->
                    Obsolete c duration st = (false, st)) /\
  Obsolete c None st = (false, st) /\
  (d' <= d ->
   fst (time_Now (world st)) <= fst (time_Now (world st')) ->
   fst (Obsolete c (Some d) st) = true ->
   fst (Obsolete c (Some d') st') = true).
Proof.
  split; [|split].
  - intros duration Hconn. rewrite Obsolete_run. unfold ConnectionState_of in Hconn.
    destruct duration, (DisconnectedAt c); done.
  - by rewrite Obsolete_run.
  - intros Hd Hn. rewrite !Obsolete_run.
    destruct (DisconnectedAt c) as [at_|]; [|done]. simpl.
    unfold Time_Before, Time_Add. rewrite !Z.ltb_lt. lia.
Qed.

(** X9.  With a retention [D] set, the session that [Terminate] of the
    service saves is disconnected at the instant [Terminate] read from the
    clock: asked later with the retention of the repository, [Obsolete]
    says true exactly when the clock then shows more than that instant plus
    [D]. *)
Theorem Terminate_then_Obsolete (session : Client) (D : Duration) st st2 :
  KeepLostClients (repo st) = Some D ->
  let '(session', _, st1) := SessionService_Terminate session st in
  repo_GetByID (repo st1) (ID session) = Some session' /\
  (fst (Obsolete session' (KeepLostClients (repo st1)) st2) = true <->
   fst (time_Now (world st)) + D < fst (time_Now (world st2))).
Proof.
  intros HD. unfold SessionService_Terminate. rewrite HD.
  unfold bind, now, outside, Save, ret, repo_Save, repo_GetByID.
  destruct (time_Now (world st)) as [t w]. simpl.
  rewrite lookup_insert_eq. split; [done|].
  rewrite HD, Obsolete_run. simpl. unfold Time_Before, Time_Add.
  by rewrite Z.ltb_lt.
Qed.

End ObsoleteProperties.

(** ** The banner *)

Lemma string_app_assoc (a b c : string) : (a +:+ b) +:+ c = a +:+ b +:+ c.
Proof.
  induction a as [|x a IH]; [done|].
  change (String x ((a +:+ b) +:+ c) = String x (a +:+ b +:+ c)).
  by rewrite IH.
Qed.

Lemma string_app_nil_r (a : string) : a +:+ "" = a.
Proof.
  induction a as [|x a IH]; [done|].
  change (String x (a +:+ "") = String x a). by rewrite IH.
Qed.

Lemma tags_fold_app (tags : list string) (a b : string) :
  fold_left (fun banner t => banner +:+ " #" +:+ t) tags (a +:+ b) =
    a +:+ fold_left (fun banner t => banner +:+ " #" +:+ t) tags b.
Proof.
  revert b. induction tags as [|t tags IH]; intros b; cbn [fold_left]; [done|].
  by rewrite <- IH, string_app_assoc.
Qed.

Lemma tags_fold_shows (tags : list string) (t b : string) :
  t ∈ tags ->
  exists front back,
    fold_left (fun banner t => banner +:+ " #" +:+ t) tags b =
      front +:+ " #" +:+ t +:+ back.
Proof.
  revert b. induction tags as [|u tags IH]; intros b Hin.
  - by apply elem_of_nil in Hin.
  - cbn [fold_left]. apply elem_of_cons in Hin as [->|Hin]; [|by apply IH].
    exists b, (fold_left (fun banner t => banner +:+ " #" +:+ t) tags "").
    rewrite <- (string_app_nil_r (b +:+ " #" +:+ u)) at 1.
    by rewrite tags_fold_app, !string_app_assoc.
Qed.

Lemma tags_fold_empty (tags : list string) :
  fold_left (fun banner t => banner +:+ " #" +:+ t) tags "" = "" -> tags = [].
Proof.
  destruct tags as [|t tags]; [done|]. cbn [fold_left].
  change ("" +:+ " #" +:+ t) with (" #" +:+ t). rewrite tags_fold_app.
  discriminate.
Qed.

Lemma tags_fold_from_empty (tags : list string) (b : string) :
  fold_left (fun banner t => banner +:+ " #" +:+ t) tags b =
    b +:+ fold_left (fun banner t => banner +:+ " #" +:+ t) tags "".
Proof. by rewrite <- tags_fold_app, string_app_nil_r. Qed.

(** X10.  The banner of a client begins with its ID and is the ID alone
    exactly when the client has neither a name nor a tag.  A name comes
    right behind the ID, in parentheses, and every tag stands somewhere
    in the banner behind a hash sign. *)
Theorem Banner_shape (c : Client) :
  (exists rest, Banner c = ID c +:+ rest) /\
  (Banner c = ID c <-> Name c = "" /\ Tags c = []) /\
  (Name c <> "" ->
   exists rest, Banner c = ID c +:+ " (" +:+ Name c +:+ ")" +:+ rest) /\
  (forall t, t ∈ Tags c ->
             exists front back, Banner c = front +:+ " #" +:+ t +:+ back).
Proof.
  set (tagged := fold_left (fun banner t => banner +:+ " #" +:+ t) (Tags c) "").
  assert (Banner c =
          ID c +:+ (if bool_decide (Name c <> "") then " (" +:+ Name c +:+ ")" else "")
               +:+ tagged) as Hshape.
  { unfold Banner. fold tagged.
    assert ((if bool_decide (length (Tags c) <> 0%nat)
             then fold_left (fun banner t => banner +:+ " #" +:+ t) (Tags c)
                    (if bool_decide (Name c <> "")
                     then ID c +:+ " (" +:+ Name c +:+ ")" else ID c)
             else if bool_decide (Name c <> "")
                  then ID c +:+ " (" +:+ Name c +:+ ")" else ID c) =
            (if bool_decide (Name c <> "")
             then ID c +:+ " (" +:+ Name c +:+ ")" else ID c) +:+ tagged) as ->.
    { case_bool_decide as Htags.
      - apply tags_fold_from_empty.
      - unfold tagged. destruct (Tags c);
          [|exfalso; simpl in Htags; first [done | by apply Htags]].
        simpl. by rewrite string_app_nil_r. }
    case_bool_decide; by rewrite ?string_app_assoc, ?string_app_nil_r. }
  split; [by eexists|]. split; [|split].
  - rewrite Hshape. split.
    + intros Heq. rewrite <- (string_app_nil_r (ID c)) in Heq at 2.
      apply (inj (String.append (ID c))) in Heq.
      case_bool_decide as Hname.
      * rewrite !string_app_assoc in Heq. discriminate.
      * try apply dec_stable in Hname. change ("" +:+ tagged) with tagged in Heq.
        split; [done | by apply tags_fold_empty].
    + intros [Hname Htags]. unfold tagged. rewrite Hname, Htags. simpl.
      by rewrite string_app_nil_r.
  - intros Hname. rewrite Hshape, bool_decide_true by done.
    exists tagged. by rewrite !string_app_assoc.
  - intros t Ht. unfold Banner. rewrite bool_decide_true.
    + by apply tags_fold_shows.
    + destruct (Tags c); [by apply elem_of_nil in Ht | done].
Qed.

(** ** Groups and the identity of a client *)

Lemma same_identity_refl (c : Client) : same_identity c c.
Proof. by repeat split. Qed.

Lemma same_identity_trans (c c1 c2 : Client) :
  same_identity c c1 -> same_identity c1 c2 -> same_identity c c2.
Proof.
  unfold same_identity. intros Ha Hb. decompose [and] Ha. decompose [and] Hb.
  repeat split; congruence.
Qed.

Ltac use_identity :=
  repeat match goal with
         | H : ?f ?c' = ?f ?c |- _ => rewrite ?H; clear H
         end.

Lemma Banner_same_identity (c c' : Client) :
  same_identity c c' -> Banner c' = Banner c.
Proof.
  unfold same_identity. intros Ha. decompose [and] Ha. unfold Banner.
  by use_identity.
Qed.

Section GroupMembership.
Variable matches : Param -> string -> bool.

Lemma BelongsTo_same_identity (c c' : Client) (group : ClientGroup) :
  same_identity c c' -> BelongsTo matches c' group = BelongsTo matches c group.
Proof.
  unfold same_identity. intros Ha. decompose [and] Ha. unfold BelongsTo.
  by use_identity.
Qed.

(** X11.  [BelongsToOneOf] says true exactly when the client belongs to one
    of the groups, so never for an empty list; over two lists put
    together it is the disjunction of the two answers; and groups without
    any parameter can be left out of the list without changing the
    answer. *)
Theorem BelongsToOneOf_iff (c : Client) (groups groups' : list ClientGroup) :
  (BelongsToOneOf matches c groups = true <->
   exists g, g ∈ groups /\ BelongsTo matches c g = true) /\
  BelongsToOneOf matches c [] = false /\
  BelongsToOneOf matches c (groups ++ groups') =
    BelongsToOneOf matches c groups || BelongsToOneOf matches c groups' /\
  BelongsToOneOf matches c
    (filter (fun g => HasNoParams (Params g) = false) groups) =
    BelongsToOneOf matches c groups.
Proof.
  unfold BelongsToOneOf. split; [|split; [done|split]].
  - rewrite existsb_exists. by setoid_rewrite list_elem_of_In.
  - apply existsb_app.
  - induction groups as [|g rest IH]; [done|].
    rewrite filter_cons. destruct (decide (HasNoParams (Params g) = false)) as [Hg|Hg].
    + simpl. by rewrite IH.
    + simpl. rewrite IH. unfold BelongsTo at 2.
      by destruct (HasNoParams (Params g)).
Qed.

End GroupMembership.

Section IdentityKept.
Context {World : Type} `{Collaborators World}.
Implicit Types (c : Client) (t : Tunnel) (r : Remote) (st : State World).

Lemma StartTunnel_identity c r (acl : TunnelACL) st :
  same_identity c (fst (fst (StartTunnel c r acl st))) /\
  DisconnectedAt (fst (fst (StartTunnel c r acl st))) = DisconnectedAt c.
Proof.
  destruct (StartTunnel_cases c r acl st)
    as [(t & Hf & ->)|(Hf & n & w & [[e ->]| ->])]; simpl;
    (split; [by repeat split | done]).
Qed.

Lemma TerminateTunnel_identity c t st :
  same_identity c (fst (fst (TerminateTunnel c t st))) /\
  DisconnectedAt (fst (fst (TerminateTunnel c t st))) = DisconnectedAt c.
Proof.
  unfold TerminateTunnel, bind, Tunnel_Terminate, outside, ret.
  destruct (tunnel_Terminate t (world st)) as [[e|] w]; simpl;
    (split; [by repeat split | done]).
Qed.

Lemma runOps_identity (ops : list SessionOp) :
  forall c st,
    same_identity c (fst (runOps c ops st)) /\
    DisconnectedAt (fst (runOps c ops st)) = DisconnectedAt c.
Proof.
  induction ops as [|op rest IH]; intros c st.
  - split; [apply same_identity_refl | done].
  - cbn [runOps]. unfold bind.
    assert (same_identity c (fst (runOp c op st)) /\
            DisconnectedAt (fst (runOp c op st)) = DisconnectedAt c) as [Hi Hd].
    { destruct op as [r acl|t]; simpl; unfold bind, ret.
      - pose proof (StartTunnel_identity c r acl st) as Hs.
        by destruct (StartTunnel c r acl st) as [[c' res] st'].
      - pose proof (TerminateTunnel_identity c t st) as Hs.
        by destruct (TerminateTunnel c t st) as [[c' res] st']. }
    destruct (runOp c op st) as [c1 st1]. simpl in *.
    destruct (IH c1 st1) as [Hi' Hd'].
    split; [by eapply same_identity_trans | congruence].
Qed.

(** X12.  Starting and terminating tunnels never changes who the client
    is: whatever calls a session serves, its ID, name, system fields,
    addresses, tags and the rest of its identity stay, and so does its
    disconnection time; hence it belongs to the same groups and has the
    same banner as before.  [Terminate] of the service keeps the identity,
    the tunnel list and the counter as well. *)
Theorem identity_kept c (ops : list SessionOp) st :
  let c' := fst (runOps c ops st) in
  let gone := fst (fst (SessionService_Terminate c st)) in
  same_identity c c' /\
  DisconnectedAt c' = DisconnectedAt c /\
  ConnectionState_of c' = ConnectionState_of c /\
  (forall matches group, BelongsTo matches c' group = BelongsTo matches c group) /\
  Banner c' = Banner c /\
  same_identity c gone /\
  Tunnels gone = Tunnels c /\
  tunnelIDAutoIncrement gone = tunnelIDAutoIncrement c /\
  (forall matches group, BelongsTo matches gone group = BelongsTo matches c group).
Proof.
  intros c' gone. destruct (runOps_identity ops c st) as [Hi Hd].
  fold c' in Hi, Hd.
  assert (same_identity c gone /\ Tunnels gone = Tunnels c /\
          tunnelIDAutoIncrement gone = tunnelIDAutoIncrement c) as (Hg & Ht & Hn).
  { unfold gone, SessionService_Terminate.
    destruct (KeepLostClients (repo st)).
    - unfold bind, now, outside, Save, ret.
      destruct (time_Now (world st)) as [n w]. simpl. by repeat split.
    - unfold bind, Delete, ret. simpl. by repeat split. }
  clearbody c' gone.
  split; [exact Hi|]. split; [exact Hd|].
  split; [unfold ConnectionState_of; by rewrite Hd|].
  split; [intros matches group; by apply BelongsTo_same_identity|].
  split; [by apply Banner_same_identity|].
  split; [exact Hg|]. split; [exact Ht|]. split; [exact Hn|].
  intros matches group. by apply BelongsTo_same_identity.
Qed.

End IdentityKept.

(** ** More on starting the tunnels of a request *)

Section RequestProperties.
Context {World : Type} `{Collaborators World}.
Implicit Types (c session : Client) (t : Tunnel) (r remote : Remote)
  (st : State World).

(** What one run of [StartTunnel] adds to the calls and to the list. *)
Lemma StartTunnel_trace c r (acl : TunnelACL) st :
  let '(c', res, st') := StartTunnel c r acl st in
  exists made,
    calls st' = calls st ++ made /\
    Forall port_or_start made /\
    port_requests made = [] /\
    (length (started made) <= 1)%nat /\
    Tunnels c' = Tunnels c ++ started_ok made /\
    same_identity c c' /\ DisconnectedAt c' = DisconnectedAt c /\
    (forall t, res = Ok t -> t ∈ Tunnels c').
Proof.
  destruct (StartTunnel_cases c r acl st)
    as [(t & Hf & ->)|(Hf & n & w & [[e ->]| ->])]; simpl.
  - exists []. rewrite !app_nil_r.
    repeat split; try done; try (simpl; lia).
    intros t' [= <-]. by destruct (findByRemote_Some _ _ _ Hf).
  - eexists. split; [reflexivity|]. simpl. rewrite app_nil_r.
    repeat split; try done; try (simpl; lia). by repeat constructor.
  - eexists. split; [reflexivity|]. simpl.
    repeat split; try done; try (simpl; lia); [by repeat constructor|].
    intros t' [= <-]. apply elem_of_app. right. apply list_elem_of_here.
Qed.

Lemma assignLocal_trace remote st :
  let '(remote', err, st') := assignLocal remote st in
  exists made,
    calls st' = calls st ++ made /\
    Forall port_or_start made /\
    started made = [] /\ started_ok made = [] /\
    (IsLocalSpecified remote = true -> made = [] /\ remote' = remote /\ err = None) /\
    (IsLocalSpecified remote = false ->
     exists p, made = [CallGetRandomPort p] /\
               match p with
               | Ok port => port_assigned remote remote' port /\ err = None
               | Err e => remote' = remote /\ err = Some e
               end).
Proof.
  unfold assignLocal. destruct (IsLocalSpecified remote); simpl.
  - exists []. rewrite app_nil_r. repeat split; try done.
  - unfold bind, PortDistributor_GetRandomPort, outside, ret.
    destruct (pd_GetRandomPort (world st)) as [[port|e] w]; simpl.
    + eexists. split; [reflexivity|]. repeat split; try done;
        [by repeat constructor|]. intros _. eexists. split; [reflexivity|].
      by repeat split.
    + eexists. split; [reflexivity|]. repeat split; try done;
        [by repeat constructor|]. intros _. eexists. by split; [reflexivity|].
Qed.


Lemma kept_or_assigned_later (made1 made2 : list Call) (ok : bool) r r' :
  kept_or_assigned made2 ok r r' -> kept_or_assigned (made1 ++ made2) ok r r'.
Proof.
  unfold kept_or_assigned. destruct (IsLocalSpecified r); [done|].
  destruct ok; [|done]. intros (port & Hp & Hin). exists port. split; [done|].
  unfold port_requests in *. rewrite omap_app. apply elem_of_app. by right.
Qed.

Lemma kept_or_assigned_untouched (made : list Call) (rs : list Remote) :
  Forall2 (kept_or_assigned made false) rs rs.
Proof.
  induction rs as [|r rs IH]; constructor; [|done].
  unfold kept_or_assigned. by destruct (IsLocalSpecified r).
Qed.

Lemma started_app (l1 l2 : list Call) :
  started (l1 ++ l2) = started l1 ++ started l2.
Proof. apply omap_app. Qed.

Lemma started_ok_app (l1 l2 : list Call) :
  started_ok (l1 ++ l2) = started_ok l1 ++ started_ok l2.
Proof. apply omap_app. Qed.

Lemma port_requests_app (l1 l2 : list Call) :
  port_requests (l1 ++ l2) = port_requests l1 ++ port_requests l2.
Proof. apply omap_app. Qed.

Lemma startTunnels_trace (remotes : list Remote) :
  forall session (tunnels : list Tunnel) st,
    let '(s', rs', res, st') := startTunnels session remotes tunnels st in
    exists made,
      calls st' = calls st ++ made /\
      Forall port_or_start made /\
      Tunnels s' = Tunnels session ++ started_ok made /\
      (length (started made) <= length remotes)%nat /\
      (length (port_requests made) <=
         length (filter (fun r => IsLocalSpecified r = false) remotes))%nat /\
      same_identity session s' /\ DisconnectedAt s' = DisconnectedAt session /\
      Forall2 (kept_or_assigned made (succeeded res)) remotes rs' /\
      (forall ts, res = Ok ts ->
         (exists new, ts = tunnels ++ new /\ length new = length remotes /\
                      forall t, t ∈ new -> t ∈ Tunnels s') /\
         length (port_requests made) =
           length (filter (fun r => IsLocalSpecified r = false) remotes)).
Proof.
  induction remotes as [|remote rest IH]; intros session tunnels st.
  - simpl. exists []. rewrite !app_nil_r.
    split; [done|]. split; [constructor|]. split; [done|].
    split; [simpl; lia|]. split; [simpl; lia|].
    split; [apply same_identity_refl|]. split; [done|]. split; [constructor|].
    intros ts' [= <-]. split; [|done]. exists []. rewrite app_nil_r.
    split; [done|]. split; [done|]. intros t Ht. by apply elem_of_nil in Ht.
  - cbn [startTunnels]. unfold bind, ret.
    pose proof (assignLocal_trace remote st) as Ha.
    destruct (assignLocal remote st) as [[remote' err] st1].
    destruct Ha as (ma & Hca & Hfa & Hsa & Hoa & Hspec & Hunspec).
    assert (length (port_requests ma) =
            length (filter (fun r => IsLocalSpecified r = false) [remote]) /\
            kept_or_assigned ma false remote remote' /\
            (err = None -> kept_or_assigned ma true remote remote')) as (Hpa & Hka & Hka').
    { unfold kept_or_assigned. rewrite filter_cons, filter_nil.
      destruct (IsLocalSpecified remote) eqn:Hl.
      - destruct (Hspec eq_refl) as (-> & -> & _).
        rewrite decide_False by done. done.
      - destruct (Hunspec eq_refl) as (p & -> & Hp).
        rewrite decide_True by done. split; [done|]. split; [done|].
        intros ->. destruct p as [port|e]; [|by destruct Hp].
        exists port. split; [by destruct Hp|]. apply list_elem_of_here. }
    assert (forall l, length (filter (fun r => IsLocalSpecified r = false) (remote :: l)) =
                      (length (port_requests ma) +
                       length (filter (fun r => IsLocalSpecified r = false) l))%nat)
      as Hcount.
    { intros l. change (remote :: l) with ([remote] ++ l).
      by rewrite filter_app, length_app, Hpa. }
    assert (forall m, kept_or_assigned ma false remote remote' ->
                      kept_or_assigned (ma ++ m) false remote remote') as Hkeep.
    { intros m. unfold kept_or_assigned. by destruct (IsLocalSpecified remote). }
    destruct err as [e|].
    { exists ma. split; [done|]. split; [done|].
      split; [by rewrite Hoa, app_nil_r|]. split; [rewrite Hsa; simpl; lia|].
      split; [rewrite Hcount; lia|]. split; [apply same_identity_refl|].
      split; [done|].
      split; [constructor; [done | apply kept_or_assigned_untouched]|]. done. }
    destruct (ParseTunnelACL (ACL remote')) as [acl|e].
    2:{ exists ma. split; [done|]. split; [done|].
        split; [by rewrite Hoa, app_nil_r|]. split; [rewrite Hsa; simpl; lia|].
        split; [rewrite Hcount; lia|]. split; [apply same_identity_refl|].
        split; [done|].
        split; [constructor; [done | apply kept_or_assigned_untouched]|]. done. }
    pose proof (StartTunnel_trace session remote' acl st1) as Hs.
    destruct (StartTunnel session remote' acl st1) as [[s1 rt] st2].
    destruct Hs as (ms & Hcs & Hfs & Hps & Hls & Hts & His & Hds & Hins).
    destruct rt as [t|e].
    2:{ exists (ma ++ ms).
        split; [by rewrite Hcs, Hca, app_assoc|].
        split; [by apply Forall_app|].
        split; [by rewrite started_ok_app, Hoa|].
        split; [rewrite started_app, Hsa; simpl; lia|].
        split; [rewrite port_requests_app, length_app, Hps, Hcount; simpl; lia|].
        split; [done|]. split; [done|].
        split; [constructor; [by apply Hkeep | apply kept_or_assigned_untouched]|].
        done. }
    pose proof (IH s1 (tunnels ++ [t]) st2) as Hr.
    destruct (startTunnels s1 rest (tunnels ++ [t]) st2) as [[[s3 rest'] res] st3].
    destruct Hr as (mr & Hcr & Hfr & Htr & Hlr & Hpr & Hir & Hdr & Hkr & Hok).
    assert (length (port_requests (ma ++ ms ++ mr)) =
            (length (port_requests ma) + length (port_requests mr))%nat) as Hpl.
    { rewrite !port_requests_app, !length_app, Hps. simpl. lia. }
    exists (ma ++ ms ++ mr).
    split; [by rewrite Hcr, Hcs, Hca, <- !app_assoc|].
    split; [by repeat (apply Forall_app; split)|].
    split; [by rewrite !started_ok_app, Htr, Hts, Hoa, <- app_assoc|].
    split; [rewrite !started_app, !length_app, Hsa; simpl; lia|].
    split; [rewrite Hpl, Hcount; lia|].
    split; [by eapply same_identity_trans|]. split; [congruence|].
    split.
    { constructor.
      - destruct (succeeded res); [|by apply Hkeep].
        unfold kept_or_assigned in *. destruct (IsLocalSpecified remote); [done|].
        destruct (Hka' eq_refl) as (port & Hp & Hin). exists port. split; [done|].
        rewrite port_requests_app. apply elem_of_app. by left.
      - eapply Forall2_impl; [exact Hkr|]. intros r r' Hk.
        rewrite app_assoc. by apply kept_or_assigned_later. }
    intros ts ->. destruct (Hok ts eq_refl) as ((new & -> & Hnew & Hon) & Hpc).
    split; [|rewrite Hpl, Hcount; lia].
    exists (t :: new). split; [by rewrite <- app_assoc|]. split; [simpl; lia|].
    intros u Hu. apply elem_of_cons in Hu as [->|Hu]; [|by apply Hon].
    rewrite Htr. apply elem_of_app. left. by apply Hins.
Qed.

Lemma StartSessionTunnels_trace session (remotes : list Remote) st :
  let '(s', rs', res, st') := StartSessionTunnels session remotes st in
  exists e made,
    calls st' = calls st ++ CallRefresh e :: made /\
    (forall err, e = Some err ->
       made = [] /\ res = Err err /\ s' = session /\ rs' = remotes) /\
    Forall port_or_start made /\
    Tunnels s' = Tunnels session ++ started_ok made /\
    (length (started made) <= length remotes)%nat /\
    (length (port_requests made) <=
       length (filter (fun r => IsLocalSpecified r = false) remotes))%nat /\
    same_identity session s' /\ DisconnectedAt s' = DisconnectedAt session /\
    Forall2 (kept_or_assigned made (succeeded res)) remotes rs' /\
    (forall ts, res = Ok ts ->
       e = None /\ length ts = length remotes /\
       (forall t, t ∈ ts -> t ∈ Tunnels s') /\
       length (port_requests made) =
         length (filter (fun r => IsLocalSpecified r = false) remotes)).
Proof.
  unfold StartSessionTunnels, bind, PortDistributor_Refresh, outside, ret.
  destruct (pd_Refresh (world st)) as [[err|] w].
  - exists (Some err), []. simpl. rewrite app_nil_r.
    split; [done|]. split; [by intros ? [= <-]|]. split; [constructor|].
    split; [done|]. split; [lia|]. split; [lia|].
    split; [apply same_identity_refl|]. split; [done|].
    split; [apply kept_or_assigned_untouched | done].
  - match goal with |- context [startTunnels ?s ?rs ?ts ?st0] =>
      pose proof (startTunnels_trace rs s ts st0) as Hr;
      destruct (startTunnels s rs ts st0) as [[[s' rs'] res] st']
    end.
    destruct Hr as (made & Hc & Hf & Ht & Hl & Hp & Hi & Hd & Hk & Hok).
    exists None, made. simpl in Hc.
    split; [by rewrite Hc, <- app_assoc|]. split; [done|].
    split; [done|]. split; [done|]. split; [done|]. split; [done|].
    split; [done|]. split; [done|]. split; [done|].
    intros ts ->. destruct (Hok ts eq_refl) as ((new & Hnew & Hlen & Hon) & Hpc).
    simpl in Hnew. subst new. done.
Qed.

(** X13.  The calls of [StartSessionTunnels] are one [Refresh] followed by
    nothing but port requests and tunnel starts, at most one start for a
    remote; the repository is not touched.  The tunnel list of the session
    is the old list followed by the tunnels whose [Start] returned no
    error, in the order of the calls, whether the run ends in an error or
    not.  A run without error returns one tunnel for every remote, each of
    them on the list. *)
Theorem StartSessionTunnels_appends session (remotes : list Remote) st :
  let '(s', rs', res, st') := StartSessionTunnels session remotes st in
  exists e made,
    calls st' = calls st ++ CallRefresh e :: made /\
    Forall port_or_start made /\
    terminated made = [] /\
    (length (started made) <= length remotes)%nat /\
    Tunnels s' = Tunnels session ++ started_ok made /\
    repo st' = repo st /\
    (forall ts, res = Ok ts ->
       length ts = length remotes /\ forall t, t ∈ ts -> t ∈ Tunnels s').
Proof.
  pose proof (StartSessionTunnels_trace session remotes st) as Ht.
  pose proof (StartSessionTunnels_quiet session remotes st) as [Hrepo _].
  destruct (StartSessionTunnels session remotes st) as [[[s' rs'] res] st'].
  destruct Ht as (e & made & Hc & _ & Hf & Hl & Hs & _ & _ & _ & _ & Hok).
  exists e, made. split; [done|]. split; [done|]. split.
  { clear -Hf. induction Hf as [|ev l Hev _ IH]; [done|].
    unfold terminated in *. simpl. by destruct ev. }
  split; [done|]. split; [done|]. split; [done|].
  intros ts Hts. by destruct (Hok ts Hts) as (_ & ? & ? & _).
Qed.

(** X14.  Take a request whose remotes are pairwise different, so that no
    remote object occurs twice in the slice.  [StartSessionTunnels] gives
    back as many remotes as it got.  A remote that has a local port comes
    back as it was, at its place, whatever happens.  The port distributor
    is asked at most once for every remote without a local port; in a run
    without error it is asked exactly that often, and every such remote
    comes back with a port that one of these calls returned, host
    "0.0.0.0" and the random mark. *)
Theorem StartSessionTunnels_ports session (remotes : list Remote) st :
  NoDup remotes ->
  let '(s', rs', res, st') := StartSessionTunnels session remotes st in
  exists e made,
    calls st' = calls st ++ CallRefresh e :: made /\
    length rs' = length remotes /\
    Forall2 (kept_or_assigned made (succeeded res)) remotes rs' /\
    (length (port_requests made) <=
       length (filter (fun r => IsLocalSpecified r = false) remotes))%nat /\
    (succeeded res = true ->
     length (port_requests made) =
       length (filter (fun r => IsLocalSpecified r = false) remotes)).
Proof.
  intros _.
  pose proof (StartSessionTunnels_trace session remotes st) as Ht.
  destruct (StartSessionTunnels session remotes st) as [[[s' rs'] res] st'].
  destruct Ht as (e & made & Hc & _ & _ & _ & _ & Hp & _ & _ & Hk & Hok).
  exists e, made. split; [done|].
  split; [symmetry; by eapply Forall2_length|]. split; [done|]. split; [done|].
  destruct res as [ts|err]; [|done]. intros _.
  by destruct (Hok ts eq_refl) as (_ & _ & _ & ?).
Qed.

(** X15.  When [StartSessionTunnels] returns no error, [StartClientSession]
    returns the session and saves it under the given ID: a lookup of the
    ID then finds this session, also among the active ones, and lookups of
    other IDs find what they found before.  The session has the given ID,
    is connected, and its tunnel list holds the tunnels started in this
    call, in the order they were started. *)
Theorem StartClientSession_saves (sid : string) (sshConn : Conn)
    (req : ConnectionRequest) st (ts : list Tunnel) :
  snd (fst (StartSessionTunnels (newSession sid sshConn req) (req_Remotes req) st))
    = Ok ts ->
  let st1 := snd (StartSessionTunnels (newSession sid sshConn req) (req_Remotes req) st) in
  let out := StartClientSession sid sshConn req st in
  exists session,
    fst out = Ok session /\
    ID session = sid /\
    ConnectionState_of session = Connected /\
    Tunnels session = started_ok (drop (length (calls st)) (calls st1)) /\
    (forall t, t ∈ ts -> t ∈ Tunnels session) /\
    world (snd out) = world st1 /\ calls (snd out) = calls st1 /\
    sessions (repo (snd out)) = <[sid := session]> (sessions (repo st)) /\
    repo_GetByID (repo (snd out)) sid = Some session /\
    repo_GetActiveByID (repo (snd out)) sid = Some session /\
    (forall id, id <> sid ->
       repo_GetByID (repo (snd out)) id = repo_GetByID (repo st) id).
Proof.
  intros Hok st1 out.
  pose proof (StartSessionTunnels_trace (newSession sid sshConn req)
                (req_Remotes req) st) as Ht.
  pose proof (StartSessionTunnels_quiet (newSession sid sshConn req)
                (req_Remotes req) st) as [Hrepo _].
  unfold out, StartClientSession, bind. fold st1 in Hrepo. unfold st1 in *.
  destruct (StartSessionTunnels (newSession sid sshConn req) (req_Remotes req) st)
    as [[[s' rs'] res] st'].
  simpl in Hok, Hrepo. subst res.
  destruct Ht as (e & made & Hc & _ & _ & Hs & _ & _ & Hi & Hd & _ & Hts).
  destruct (Hts ts eq_refl) as (_ & _ & Hon & _).
  destruct Hi as (Hid & _). simpl in Hid, Hd, Hs.
  exists s'. unfold Save, ret, repo_Save, repo_GetByID, repo_GetActiveByID. simpl.
  rewrite Hrepo, Hid.
  split; [done|]. split; [done|].
  split; [unfold ConnectionState_of; by rewrite Hd|].
  split.
  { rewrite Hs, Hc, drop_app_length.
    change (CallRefresh e :: made) with ([CallRefresh e] ++ made).
    by rewrite started_ok_app. }
  split; [done|]. split; [done|]. split; [done|]. split; [done|].
  rewrite lookup_insert_eq, Hd.
  split; [done|]. split; [done|].
  intros id Hne. by rewrite lookup_insert_ne.
Qed.

End RequestProperties.

(** ** The options of the server *)

Lemma firstNonEmpty_one (a : string) : firstNonEmpty [a] = a.
Proof. simpl. case_bool_decide; congruence. Qed.

Lemma ifEmpty_two (a alt : string) : ifEmpty a alt = firstNonEmpty [a; alt].
Proof. unfold ifEmpty. simpl. repeat case_bool_decide; congruence. Qed.

Lemma firstNonEmpty_nested (l l' : list string) :
  firstNonEmpty (firstNonEmpty l :: l') = firstNonEmpty (l ++ l').
Proof.
  induction l as [|s l IH]; cbn [firstNonEmpty app] in *.
  - by rewrite bool_decide_true.
  - destruct (decide (s = "")) as [->|Hs].
    + rewrite !(bool_decide_true ("" = "")) by done. done.
    + rewrite !(bool_decide_false (s = "")) by done. done.
Qed.

Lemma firstNonEmpty_default (l : list string) (d : string) :
  d <> "" -> firstNonEmpty (l ++ [d]) <> "".
Proof.
  intros Hd. induction l as [|s l IH]; simpl.
  - by rewrite bool_decide_false.
  - by case_bool_decide.
Qed.

Lemma Getenv_agree (env1 env2 : gmap string string) (key : string) :
  env1 !! key = env2 !! key -> Getenv env1 key = Getenv env2 key.
Proof. unfold Getenv. by intros ->. Qed.

(** X16.  When [main] gets as far as starting the server, every option has
    the first value that is not empty in its order of precedence: for the
    interface the flag, then RPORT_LISTEN, then "0.0.0.0"; for the port
    the flag [--port], then [-p], then RPORT_PORT, then "8080"; for the key,
    the API address and the API credentials the flag, then the variable;
    for the JWT secret the flag, then RPORT_API_JWT_SECRET, then a
    generated one.  The address handed to [Run] is interface, colon, port,
    neither of them empty, and a document root never comes without an API
    address. *)
Theorem main_precedence (f : Flags) (env : gmap string string)
    (generateJWTSecret : option string) (cfg : Config) (addr apiAddr : string) :
  main f env generateJWTSecret = Serve cfg addr apiAddr ->
  let iface := firstNonEmpty [flag_listen f; Getenv env "RPORT_LISTEN"; "0.0.0.0"] in
  let port := firstNonEmpty [flag_port f; flag_p f; Getenv env "RPORT_PORT"; "8080"] in
  let secret := firstNonEmpty [flag_api_jwt_secret f; Getenv env "RPORT_API_JWT_SECRET"] in
  addr = iface +:+ ":" +:+ port /\ iface <> "" /\ port <> "" /\
  apiAddr = firstNonEmpty [flag_api_addr f; Getenv env "RPORT_API_ADDR"] /\
  KeySeed cfg = firstNonEmpty [flag_key f; Getenv env "RPORT_KEY"] /\
  APIAuth cfg = firstNonEmpty [flag_api_auth f; Getenv env "RPORT_API_AUTH"] /\
  (secret <> "" -> APIJWTSecret cfg = secret) /\
  (secret = "" -> generateJWTSecret = Some (APIJWTSecret cfg)) /\
  AuthFile cfg = flag_authfile f /\ Auth cfg = flag_auth f /\
  Proxy cfg = flag_proxy f /\ Verbose cfg = flag_v f /\
  DocRoot cfg = flag_doc_root f /\
  (DocRoot cfg <> "" -> apiAddr <> "") /\
  flag_version f = false /\ NArg f = 0%nat.
Proof.
  unfold main. destruct (flag_version f); [done|].
  case_bool_decide as Hargs; [done|].
  rewrite !ifEmpty_two, !firstNonEmpty_nested. cbn [app].
  rewrite ?firstNonEmpty_nested. cbn [app].
  set (iface := firstNonEmpty [flag_listen f; Getenv env "RPORT_LISTEN"; "0.0.0.0"]).
  set (port := firstNonEmpty [flag_port f; flag_p f; Getenv env "RPORT_PORT"; "8080"]).
  set (secret := firstNonEmpty [flag_api_jwt_secret f; Getenv env "RPORT_API_JWT_SECRET"]).
  set (api := firstNonEmpty [flag_api_addr f; Getenv env "RPORT_API_ADDR"]).
  intros Hrun.
  assert (iface <> "") as Hi.
  { by apply (firstNonEmpty_default [flag_listen f; Getenv env "RPORT_LISTEN"]). }
  assert (port <> "") as Hp.
  { by apply (firstNonEmpty_default [flag_port f; flag_p f; Getenv env "RPORT_PORT"]). }
  assert (NArg f = 0%nat) as Hn by lia.
  destruct (bool_decide (secret = "")) eqn:Hsec.
  - apply bool_decide_eq_true in Hsec.
    destruct generateJWTSecret as [g|]; [|done].
    destruct (bool_decide (flag_doc_root f <> "") && bool_decide (api = "")) eqn:Hdoc;
      [done|].
    injection Hrun as <- <- <-. simpl.
    repeat split; try done.
    intros Hroot Ha. by rewrite !bool_decide_true in Hdoc.
  - apply bool_decide_eq_false in Hsec.
    destruct (bool_decide (flag_doc_root f <> "") && bool_decide (api = "")) eqn:Hdoc;
      [done|].
    injection Hrun as <- <- <-. simpl.
    repeat split; try done.
    intros Hroot Ha. by rewrite !bool_decide_true in Hdoc.
Qed.

(** X17.  From the point where [flag.Parse] has returned to the point
    where it comes to [NewServer], [main] ends the process in four cases
    and in no other, each time with status 1: the version is asked for;
    arguments are left over; neither the flag nor RPORT_API_JWT_SECRET
    gives a secret and none can be generated; a document root is given and
    neither the flag nor RPORT_API_ADDR gives an API address.  In the
    first two [main] prints and calls [os.Exit] itself, the version check
    coming first, and it does so in these two only; in the last two it
    dies through [log.Fatal], for want of a secret before the document
    root is looked at.  In every other case it goes on to make the
    server. *)
Theorem main_outcome (f : Flags) (env : gmap string string)
    (generateJWTSecret : option string) :
  let secret := firstNonEmpty [flag_api_jwt_secret f; Getenv env "RPORT_API_JWT_SECRET"] in
  let api := firstNonEmpty [flag_api_addr f; Getenv env "RPORT_API_ADDR"] in
  let run := main f env generateJWTSecret in
  (exit_status run = Some 1 <->
   flag_version f = true \/ NArg f <> 0%nat \/
   (secret = "" /\ generateJWTSecret = None) \/
   (flag_doc_root f <> "" /\ api = "")) /\
  (exit_status run = None <-> exists cfg addr apiAddr, run = Serve cfg addr apiAddr) /\
  (exit_status run = Some 1 \/ exit_status run = None) /\
  (flag_version f = true -> run = Exit [PrintBuildVersion] 1) /\
  (flag_version f = false -> NArg f <> 0%nat ->
   run = Exit [PrintUnsupported; PrintServerHelp] 1) /\
  (forall out code, run = Exit out code ->
                    code = 1 /\ (flag_version f = true \/ NArg f <> 0%nat)) /\
  (run = LogFatal FatalNoSecret <->
   flag_version f = false /\ NArg f = 0%nat /\
   secret = "" /\ generateJWTSecret = None) /\
  (run = LogFatal FatalDocRootWithoutAPI <->
   flag_version f = false /\ NArg f = 0%nat /\
   (secret = "" -> generateJWTSecret <> None) /\
   flag_doc_root f <> "" /\ api = "").
Proof.
  intros secret api run.
  assert (exit_status run = None <->
          exists cfg addr apiAddr, run = Serve cfg addr apiAddr) as Hserve.
  { destruct run as [out code|why|cfg addr apiAddr]; simpl.
    - split; [done | by intros (? & ? & ? & ?)].
    - split; [done | by intros (? & ? & ? & ?)].
    - split; [by eauto | done]. }
  revert Hserve. unfold run, main. rewrite !ifEmpty_two. fold secret. fold api.
  intros Hserve.
  destruct (flag_version f).
  { split; [split; [by left | done]|]. split; [done|]. split; [by left|].
    split; [done|]. split; [done|].
    split; [intros out code [= <- <-]; split; [done | by left]|].
    split; (split; [done | by intros (? & _)]). }
  case_bool_decide as Hargs.
  { assert (NArg f <> 0%nat) by lia.
    split; [split; [by right; left | done]|]. split; [done|]. split; [by left|].
    split; [done|]. split; [done|].
    split; [intros out code [= <- <-]; split; [done | by right]|].
    split; (split; [done | by intros (_ & ? & _)]). }
  assert (NArg f = 0%nat) as Hn by lia.
  destruct (bool_decide (secret = "")) eqn:Hsec.
  - apply bool_decide_eq_true in Hsec. destruct generateJWTSecret as [g|].
    + destruct (bool_decide (flag_doc_root f <> "") && bool_decide (api = "")) eqn:Hdoc.
      * apply andb_true_iff in Hdoc as [Hd Ha].
        apply bool_decide_eq_true in Hd, Ha.
        split; [split; [by right; right; right | done]|].
        split; [done|]. split; [by left|].
        split; [done|]. split; [done|].
        split; [done|]. split; [split; [done | by intros (_ & _ & _ & ?)]|].
        split; [done|]. intros _. by repeat split.
      * split.
        { split; [done|]. intros [?|[?|[[_ ?]|[Hd Ha]]]]; try done.
          by rewrite !bool_decide_true in Hdoc. }
        split; [done|]. split; [by right|].
        split; [done|]. split; [done|].
        split; [done|]. split; [split; [done | by intros (_ & _ & _ & ?)]|].
        split; [done|]. intros (_ & _ & _ & Hd & Ha).
        by rewrite !bool_decide_true in Hdoc.
    + split; [split; [by right; right; left | done]|].
      split; [done|]. split; [by left|].
      split; [done|]. split; [done|]. split; [done|]. split; [done|].
      split; [done|]. intros (_ & _ & Hg & _). by destruct (Hg Hsec).
  - apply bool_decide_eq_false in Hsec.
    destruct (bool_decide (flag_doc_root f <> "") && bool_decide (api = "")) eqn:Hdoc.
    + apply andb_true_iff in Hdoc as [Hd Ha].
      apply bool_decide_eq_true in Hd, Ha.
      split; [split; [by right; right; right | done]|].
      split; [done|]. split; [by left|].
      split; [done|]. split; [done|].
      split; [done|]. split; [split; [done | by intros (_ & _ & ? & _)]|].
      split; [done|]. intros _. by repeat split.
    + split.
      { split; [done|]. intros [?|[?|[[? _]|[Hd Ha]]]]; try done.
        by rewrite !bool_decide_true in Hdoc. }
      split; [done|]. split; [by right|].
      split; [done|]. split; [done|].
      split; [done|]. split; [split; [done | by intros (_ & _ & ? & _)]|].
      split; [done|]. intros (_ & _ & _ & Hd & Ha).
      by rewrite !bool_decide_true in Hdoc.
Qed.

(** X18.  [main] looks at the environment through six variables only:
    RPORT_LISTEN, RPORT_PORT, RPORT_KEY, RPORT_API_ADDR, RPORT_API_AUTH and
    RPORT_API_JWT_SECRET.  Two environments that agree on them lead to the
    same outcome, whatever else they hold. *)
Theorem main_environment (f : Flags) (env1 env2 : gmap string string)
    (generateJWTSecret : option string) :
  (forall key, key ∈ main_variables -> env1 !! key = env2 !! key) ->
  main f env1 generateJWTSecret = main f env2 generateJWTSecret.
Proof.
  intros Hagree. unfold main.
  rewrite (Getenv_agree env1 env2 "RPORT_LISTEN"),
    (Getenv_agree env1 env2 "RPORT_PORT"), (Getenv_agree env1 env2 "RPORT_KEY"),
    (Getenv_agree env1 env2 "RPORT_API_ADDR"),
    (Getenv_agree env1 env2 "RPORT_API_AUTH"),
    (Getenv_agree env1 env2 "RPORT_API_JWT_SECRET");
    [done|apply Hagree; unfold main_variables; set_solver ..].
Qed.

(** X19.  A flag that is given wins: when the six options that have a
    variable behind them are all given as flags, the outcome of [main] is
    the same in every environment and with every generated secret.  And a
    secret given as a flag or in RPORT_API_JWT_SECRET makes the generated
    one irrelevant. *)
Theorem main_flags_win (f : Flags) (env env' : gmap string string)
    (g g' : option string) :
  (flag_listen f <> "" -> flag_port f <> "" -> flag_key f <> "" ->
   flag_api_addr f <> "" -> flag_api_auth f <> "" -> flag_api_jwt_secret f <> "" ->
   main f env g = main f env' g') /\
  (firstNonEmpty [flag_api_jwt_secret f; Getenv env "RPORT_API_JWT_SECRET"] <> "" ->
   main f env g = main f env g').
Proof.
  split.
  - intros H1 H2 H3 H4 H5 H6. unfold main, ifEmpty.
    rewrite !(bool_decide_false (flag_listen f = "")) by done.
    rewrite !(bool_decide_false (flag_port f = "")) by done.
    rewrite !(bool_decide_false (flag_key f = "")) by done.
    rewrite !(bool_decide_false (flag_api_addr f = "")) by done.
    rewrite !(bool_decide_false (flag_api_auth f = "")) by done.
    rewrite !(bool_decide_false (flag_api_jwt_secret f = "")) by done.
    done.
  - intros Hs. unfold main. rewrite !ifEmpty_two.
    rewrite (bool_decide_false _ Hs). done.
Qed.

(** ** Further runs on the stand-in host *)

(** Three tunnels asked for, the second of which cannot bind, and the first
    terminated: the list holds tunnel "3" alone and it is found by its
    ID. *)
Lemma FindTunnel_finds_listed_witness :
  let r1 := Stub.remote "3000" "10.0.0.5" "22" in
  let r2 := Stub.remote "3001" "10.0.0.5" "80" in
  let r3 := Stub.remote "3002" "10.0.0.5" "443" in
  let ops := [OpStartTunnel r1 []; OpStartTunnel r2 []; OpStartTunnel r3 [];
              OpTerminateTunnel (NewTunnel "1" r1 [])] in
  let st := Stub.init ["3001"] [] None in
  let c := fst (runOps (newSession "s1" Stub.conn (Stub.request [])) ops st) in
  Z.of_nat (length ops) <= max_int64 /\
  NoDup (tunnel_ID <$> Tunnels c) /\
  forall t, t ∈ Tunnels c -> FindTunnel c (tunnel_ID t) = Some t.
Proof.
  intros r1 r2 r3 ops st c.
  assert (Z.of_nat (length ops) <= max_int64) as Hlen by (vm_compute; discriminate).
  split; [exact Hlen|].
  apply (FindTunnel_finds_listed "s1" Stub.conn (Stub.request []) ops st Hlen).
Defined.

(** Asking twice for the tunnel on port 3000 gives tunnel "1" both times. *)
Lemma StartTunnel_twice_witness :
  let r := Stub.remote "3000" "10.0.0.5" "22" in
  let c := newSession "s1" Stub.conn (Stub.request []) in
  let st := Stub.init [] [] None in
  (forall id, tunnel_Equals (NewTunnel id r []) r = true) /\
  let '(c1, res, st1) := StartTunnel c r [] st in
  forall t, res = Ok t ->
            StartTunnel c1 r [mkIPNet 167772160 8] st1 = ((c1, Ok t), st1).
Proof.
  intros r c st.
  assert (forall id, tunnel_Equals (NewTunnel id r []) r = true) as Hrefl
    by (intros id; reflexivity).
  split; [exact Hrefl|].
  apply (StartTunnel_twice c r [] [mkIPNet 167772160 8] st Hrefl).
Defined.

(** Tunnel "1" on port 3000 is terminated; the tunnel that is then started
    on the same port is tunnel "2", and no search for "1" finds
    anything. *)
Lemma terminated_ID_not_reused_witness :
  let r := Stub.remote "3000" "10.0.0.5" "22" in
  let t := NewTunnel "1" r [] in
  let before := [OpStartTunnel r []] in
  let after := [OpStartTunnel r []] in
  let st := Stub.init [] [] None in
  let s0 := runOps (newSession "s1" Stub.conn (Stub.request [])) before st in
  let out := TerminateTunnel (fst s0) t (snd s0) in
  let later := runOps (fst (fst out)) after (snd out) in
  (Z.of_nat (length before) + Z.of_nat (length after) <= max_int64 /\
   t ∈ Tunnels (fst s0) /\
   fst (tunnel_Terminate t (world (snd s0))) = None) /\
  snd (fst out) = None /\
  (forall u, u ∈ Tunnels (fst later) -> tunnel_ID u <> tunnel_ID t) /\
  FindTunnel (fst later) (tunnel_ID t) = None.
Proof.
  intros r t before after st s0 out later.
  assert (Z.of_nat (length before) + Z.of_nat (length after) <= max_int64) as H1
    by (vm_compute; discriminate).
  assert (t ∈ Tunnels (fst s0)) as H2 by apply list_elem_of_here.
  assert (fst (tunnel_Terminate t (world (snd s0))) = None) as H3 by reflexivity.
  split; [done|].
  apply (terminated_ID_not_reused "s1" Stub.conn (Stub.request [])
           before after t st H1 H2 H3).
Defined.

Example terminated_ID_run :
  let r := Stub.remote "3000" "10.0.0.5" "22" in
  let c := newSession "s1" Stub.conn (Stub.request []) in
  let out1 := StartTunnel c r [] (Stub.init [] [] None) in
  let out2 := TerminateTunnel (fst (fst out1)) (NewTunnel "1" r []) (snd out1) in
  let out3 := StartTunnel (fst (fst out2)) r [] (snd out2) in
  snd (fst out2) = None /\
  snd (fst out3) = Ok (NewTunnel "2" r []) /\
  FindTunnel (fst (fst out3)) "1" = None /\
  FindTunnel (fst (fst out3)) "2" = Some (NewTunnel "2" r []).
Proof. repeat split; reflexivity. Qed.

(** With a retention of 600 and the clock at 1000 when the session is
    terminated, the session is obsolete at 1601 and not yet at 1600. *)
Lemma Terminate_then_Obsolete_witness :
  let s := newSession "s1" Stub.conn (Stub.request []) in
  let st := Stub.init [] [] (Some 600) in
  let st2 := mkState (Stub.mkHost [] [] false 1601) (mkRepo ∅ (Some 600)) [] in
  KeepLostClients (repo st) = Some 600 /\
  let '(session', _, st1) := SessionService_Terminate s st in
  repo_GetByID (repo st1) (ID s) = Some session' /\
  (fst (Obsolete session' (KeepLostClients (repo st1)) st2) = true <->
   fst (time_Now (world st)) + 600 < fst (time_Now (world st2))).
Proof.
  intros s st st2.
  assert (KeepLostClients (repo st) = Some 600) as HD by reflexivity.
  split; [exact HD|].
  apply (Terminate_then_Obsolete s 600 st st2 HD).
Defined.

Example Terminate_then_Obsolete_run :
  let s := newSession "s1" Stub.conn (Stub.request []) in
  let gone := fst (fst (SessionService_Terminate s (Stub.init [] [] (Some 600)))) in
  let at_ n := mkState (Stub.mkHost [] [] false n) (mkRepo ∅ (Some 600)) [] in
  fst (Obsolete gone (Some 600) (at_ 1600)) = false /\
  fst (Obsolete gone (Some 600) (at_ 1601)) = true /\
  fst (Obsolete s (Some 600) (at_ 1601)) = false.
Proof. repeat split; reflexivity. Qed.

(** A request for port 3000 and for a port of the distributor's choice:
    the session is saved with tunnels "1" and "2". *)
Lemma StartClientSession_saves_witness :
  let r1 := Stub.remote "3000" "10.0.0.5" "22" in
  let r2 := Stub.remote "" "10.0.0.5" "80" in
  let r2' := mkRemote "" "0.0.0.0" "20000" "10.0.0.5" "80" true None in
  let req := Stub.request [r1; r2] in
  let st := Stub.init [] [20000] None in
  let ts := [NewTunnel "1" r1 []; NewTunnel "2" r2' []] in
  let st1 := snd (StartSessionTunnels (newSession "s1" Stub.conn req) (req_Remotes req) st) in
  let out := StartClientSession "s1" Stub.conn req st in
  snd (fst (StartSessionTunnels (newSession "s1" Stub.conn req) (req_Remotes req) st))
    = Ok ts /\
  exists session,
    fst out = Ok session /\
    ID session = "s1" /\
    ConnectionState_of session = Connected /\
    Tunnels session = started_ok (drop (length (calls st)) (calls st1)) /\
    (forall t, t ∈ ts -> t ∈ Tunnels session) /\
    world (snd out) = world st1 /\ calls (snd out) = calls st1 /\
    sessions (repo (snd out)) = <["s1" := session]> (sessions (repo st)) /\
    repo_GetByID (repo (snd out)) "s1" = Some session /\
    repo_GetActiveByID (repo (snd out)) "s1" = Some session /\
    (forall id, id <> "s1" ->
       repo_GetByID (repo (snd out)) id = repo_GetByID (repo st) id).
Proof.
  intros r1 r2 r2' req st ts st1 out.
  assert (snd (fst (StartSessionTunnels (newSession "s1" Stub.conn req)
                      (req_Remotes req) st)) = Ok ts) as Hok by reflexivity.
  split; [exact Hok|].
  apply (StartClientSession_saves "s1" Stub.conn req st ts Hok).
Defined.

(** Three different remotes, the last two without a local port: the
    distributor is asked twice and gives ports 20000 and 20001. *)
Lemma StartSessionTunnels_ports_witness :
  let r1 := Stub.remote "3000" "10.0.0.5" "22" in
  let r2 := Stub.remote "" "10.0.0.5" "80" in
  let r3 := Stub.remote "" "10.0.0.5" "443" in
  let session := newSession "s1" Stub.conn (Stub.request []) in
  let st := Stub.init [] [20000; 20001] None in
  (port_requests (calls (snd (StartSessionTunnels session [r1; r2; r3] st)))
     = [Ok 20000; Ok 20001] /\
   snd (fst (fst (StartSessionTunnels session [r1; r2; r3] st))) =
     [r1; mkRemote "" "0.0.0.0" "20000" "10.0.0.5" "80" true None;
      mkRemote "" "0.0.0.0" "20001" "10.0.0.5" "443" true None]) /\
  NoDup [r1; r2; r3] /\
  let '(s', rs', res, st') := StartSessionTunnels session [r1; r2; r3] st in
  exists e made,
    calls st' = calls st ++ CallRefresh e :: made /\
    length rs' = length [r1; r2; r3] /\
    Forall2 (kept_or_assigned made (succeeded res)) [r1; r2; r3] rs' /\
    (length (port_requests made) <=
       length (filter (fun r => IsLocalSpecified r = false) [r1; r2; r3]))%nat /\
    (succeeded res = true ->
     length (port_requests made) =
       length (filter (fun r => IsLocalSpecified r = false) [r1; r2; r3])).
Proof.
  intros r1 r2 r3 session st.
  split; [split; reflexivity|].
  assert (NoDup [r1; r2; r3]) as Hnd.
  { apply (bool_decide_unpack _). vm_compute. exact I. }
  split; [exact Hnd|].
  apply (StartSessionTunnels_ports session [r1; r2; r3] st Hnd).
Defined.

Example StartSessionTunnels_ports_run :
  let r1 := Stub.remote "3000" "10.0.0.5" "22" in
  let r2 := Stub.remote "" "10.0.0.5" "80" in
  let r3 := Stub.remote "" "10.0.0.5" "443" in
  let out := StartSessionTunnels (newSession "s1" Stub.conn (Stub.request []))
               [r1; r2; r3] (Stub.init [] [20000] None) in
  snd (fst out) = Err PortExhaustedError /\
  snd (fst (fst out)) =
    [r1; mkRemote "" "0.0.0.0" "20000" "10.0.0.5" "80" true None; r3] /\
  port_requests (calls (snd out)) = [Ok 20000; Err PortExhaustedError] /\
  tunnel_ID <$> Tunnels (fst (fst (fst out))) = ["1"; "2"].
Proof. repeat split; reflexivity. Qed.

(** ** The options of the server, run *)

(** With [-p 9000] and RPORT_PORT and RPORT_API_JWT_SECRET set, the port of
    the flag is taken and the secret of the variable. *)
Lemma main_precedence_witness :
  let f := mkFlags "" "9000" "" "" "" "" "" "" "" "" "" true false 0 in
  let env : gmap string string :=
    {[ "RPORT_PORT" := "7000"; "RPORT_API_JWT_SECRET" := "s3cret" ]} in
  let cfg := mkConfig "" "" "" "" true "" "s3cret" "" in
  main f env None = Serve cfg "0.0.0.0:9000" "" /\
  let iface := firstNonEmpty [flag_listen f; Getenv env "RPORT_LISTEN"; "0.0.0.0"] in
  let port := firstNonEmpty [flag_port f; flag_p f; Getenv env "RPORT_PORT"; "8080"] in
  let secret := firstNonEmpty [flag_api_jwt_secret f; Getenv env "RPORT_API_JWT_SECRET"] in
  "0.0.0.0:9000" = iface +:+ ":" +:+ port /\ iface <> "" /\ port <> "" /\
  "" = firstNonEmpty [flag_api_addr f; Getenv env "RPORT_API_ADDR"] /\
  KeySeed cfg = firstNonEmpty [flag_key f; Getenv env "RPORT_KEY"] /\
  APIAuth cfg = firstNonEmpty [flag_api_auth f; Getenv env "RPORT_API_AUTH"] /\
  (secret <> "" -> APIJWTSecret cfg = secret) /\
  (secret = "" -> None = Some (APIJWTSecret cfg)) /\
  AuthFile cfg = flag_authfile f /\ Auth cfg = flag_auth f /\
  Proxy cfg = flag_proxy f /\ Verbose cfg = flag_v f /\
  DocRoot cfg = flag_doc_root f /\
  (DocRoot cfg <> "" -> "" <> "") /\
  flag_version f = false /\ NArg f = 0%nat.
Proof.
  intros f env cfg.
  assert (main f env None = Serve cfg "0.0.0.0:9000" "") as Hrun by (vm_compute; reflexivity).
  split; [exact Hrun|].
  apply (main_precedence f env None cfg "0.0.0.0:9000" "" Hrun).
Defined.

(** A variable that [main] does not read changes nothing. *)
Lemma main_environment_witness :
  let env1 : gmap string string :=
    {[ "RPORT_PORT" := "7000"; "RPORT_AUTH_JWT_SECRET" := "ignored" ]} in
  let env2 : gmap string string := {[ "RPORT_PORT" := "7000" ]} in
  (forall key, key ∈ main_variables -> env1 !! key = env2 !! key) /\
  main no_flags env1 (Some "generated") = main no_flags env2 (Some "generated").
Proof.
  intros env1 env2.
  assert (forall key, key ∈ main_variables -> env1 !! key = env2 !! key) as Hagree.
  { intros key Hkey. unfold main_variables in Hkey.
    repeat (apply elem_of_cons in Hkey as [->|Hkey]; [vm_compute; reflexivity|]).
    by apply elem_of_nil in Hkey. }
  split; [exact Hagree|].
  apply (main_environment no_flags env1 env2 (Some "generated") Hagree).
Defined.

Example main_run :
  let env : gmap string string := {[ "RPORT_API_ADDR" := "127.0.0.1:3000" ]} in
  let root := mkFlags "" "" "" "" "" "" "" "" "" "" "/srv/www" false false 0 in
  main no_flags ∅ (Some "generated") =
    Serve (mkConfig "" "" "" "" false "" "generated" "") "0.0.0.0:8080" "" /\
  main no_flags ∅ None = LogFatal FatalNoSecret /\
  main root ∅ (Some "generated") = LogFatal FatalDocRootWithoutAPI /\
  main root env (Some "generated") =
    Serve (mkConfig "" "" "" "" false "" "generated" "/srv/www")
      "0.0.0.0:8080" "127.0.0.1:3000" /\
  main (mkFlags "" "" "" "" "" "" "" "" "" "" "" false true 2) ∅ None =
    Exit [PrintBuildVersion] 1.
Proof. repeat split; vm_compute; reflexivity. Qed.

(** Both ways of dying leave status 1, as the two exits do. *)
Example main_exit_status_run :
  let root := mkFlags "" "" "" "" "" "" "" "" "" "" "/srv/www" false false 0 in
  exit_status (main no_flags ∅ None) = Some 1 /\
  exit_status (main root ∅ (Some "generated")) = Some 1 /\
  exit_status (main (mkFlags "" "" "" "" "" "" "" "" "" "" "" false true 0) ∅ None)
    = Some 1 /\
  exit_status (main (mkFlags "" "" "" "" "" "" "" "" "" "" "" false false 1) ∅ None)
    = Some 1 /\
  exit_status (main no_flags ∅ (Some "generated")) = None.
Proof. repeat split; vm_compute; reflexivity. Qed.
